(** * Retail dashboards: inventory (main.py) and sales (sales-report.py)

    A shallow embedding of the data pipeline of the two dashboards:
    the fetchers, the normalizers, the facet filters, the group-and-sum
    aggregation and the month-over-month growth series.

    Conventions of the embedding.
    - A decoded JSON value / Python object is a [pyval].  Python [dict]s are
      association lists in insertion order, with unique keys.
    - Python [str] is a Rocq [string] (the UTF-8 bytes); containment of an
      ASCII needle is the same on bytes and on code points.
    - A Python float is a [pyfloat]: an exact rational, an infinity or NaN.
      Rounding of binary floating point is not modelled.
    - A pandas DataFrame is column-major: a row count and an association list
      from column names to columns of cells.
    - A call that can raise returns a [result]; messages sent to the page
      ([st.error], [st.warning]) are collected in a log.
    - The library calls whose behaviour depends on text ([json.loads],
      the string reader of [pd.to_numeric], [pd.to_datetime]) are section
      variables; module [Samples] has instances to run the code on data.
    - The cache decorators and the drawing of the charts are left out. *)

From Stdlib Require Import List String Ascii Bool ZArith QArith Lia.
From Stdlib Require Import DecimalString.
From Stdlib Require Import Permutation Sorted Lqa.
Import ListNotations.
Open Scope string_scope.
Open Scope list_scope.
Open Scope Z_scope.

(** ** Python values *)

Inductive pyfloat : Type :=
| FFin (q : Q)
| FInf (negative : bool)
| FNaN.

(** A calendar date, as held by a pandas Timestamp cell. *)
Record date : Type := mkDate { d_year : Z; d_month : nat; d_day : nat }.

#[warnings="-register-all"]
Inductive pyval : Type :=
| PyNone
| PyBool (b : bool)
| PyInt (z : Z)
| PyFloat (f : pyfloat)
| PyStr (s : string)
| PyList (l : list pyval)
| PyDict (d : list (string * pyval))
| PyDate (t : date)
| PyNaT.

(** [isinstance(v, str)] *)
Definition is_str (v : pyval) : bool :=
  match v with PyStr _ => true | _ => false end.

(** pandas' [isna] on one cell: [None], NaN and NaT are the nulls. *)
Definition isna (v : pyval) : bool :=
  match v with
  | PyNone => true
  | PyFloat FNaN => true
  | PyNaT => true
  | _ => false
  end.

Definition notna (v : pyval) : bool := negb (isna v).

(** The NaN that pandas puts in a cell whose record lacks the column. *)
Definition NaN : pyval := PyFloat FNaN.

(** ** Exceptions and results *)

Inductive exn : Type :=
| KeyError (key : string)
| TypeError
| ValueError
| UnboundLocalError (name : string)
| JSONDecodeError
| ConnectionError
| HTTPError (status : Z)
| IntCastingNaNError.

Inductive result (A : Type) : Type :=
| Ok (a : A)
| Raise (e : exn).
Arguments Ok {A} a.
Arguments Raise {A} e.

Definition bind {A B} (r : result A) (k : A -> result B) : result B :=
  match r with
  | Ok a => k a
  | Raise e => Raise e
  end.

Notation "x <- r ;; k" := (bind r (fun x => k))
  (at level 61, r at next level, right associativity).

(** ** Strings *)

(** [needle in hay] for Python strings. *)
Fixpoint str_in (needle hay : string) : bool :=
  String.prefix needle hay ||
  match hay with
  | EmptyString => false
  | String _ rest => str_in needle rest
  end.

(** The ASCII characters [str.strip()] removes: space, tab, line feed,
    vertical tab, form feed, carriage return and the four separators
    0x1c-0x1f. *)
Definition is_space (c : ascii) : bool :=
  let n := nat_of_ascii c in
  ((9 <=? n) && (n <=? 13) || (28 <=? n) && (n <=? 32))%nat.

Fixpoint lstrip (s : string) : string :=
  match s with
  | EmptyString => EmptyString
  | String c rest => if is_space c then lstrip rest else s
  end.

Fixpoint rstrip (s : string) : string :=
  match s with
  | EmptyString => EmptyString
  | String c rest =>
      match rstrip rest with
      | EmptyString => if is_space c then EmptyString else String c EmptyString
      | r => String c r
      end
  end.

Definition strip (s : string) : string := rstrip (lstrip s).

(** ** Python dicts as association lists *)

Fixpoint dict_get {V} (k : string) (d : list (string * V)) : option V :=
  match d with
  | [] => None
  | (k', v) :: rest => if String.eqb k k' then Some v else dict_get k rest
  end.

(** [d[k] = v]: overwrite in place, or append a new key. *)
Fixpoint dict_set {V} (k : string) (v : V) (d : list (string * V))
  : list (string * V) :=
  match d with
  | [] => [(k, v)]
  | (k', v') :: rest =>
      if String.eqb k k' then (k, v) :: rest else (k', v') :: dict_set k v rest
  end.

Definition dict_has {V} (k : string) (d : list (string * V)) : bool :=
  match dict_get k d with Some _ => true | None => false end.

(** ** Page messages and the fetch-and-report monad *)

(** What an f-string interpolates into a message, at the [{}] of its
    text. *)
Inductive msg_arg : Type :=
| ArgNone
| ArgExn (e : exn)
| ArgVal (v : pyval)
| ArgInt (z : Z).

Inductive message : Type :=
| StError (text : string) (arg : msg_arg)
| StWarning (text : string) (arg : msg_arg).

(** A computation that writes messages to the page and returns or raises. *)
Definition ui (A : Type) : Type := (list message * result A)%type.

Definition ret {A} (a : A) : ui A := ([], Ok a).
Definition lift {A} (r : result A) : ui A := ([], r).
Definition say (m : message) : ui unit := ([m], Ok tt).

Definition ui_bind {A B} (m : ui A) (k : A -> ui B) : ui B :=
  match m with
  | (log, Ok a) => let (log', r) := k a in ((log ++ log')%list, r)
  | (log, Raise e) => (log, Raise e)
  end.

Notation "x <-- m ;;; k" := (ui_bind m (fun x => k))
  (at level 61, m at next level, right associativity).
Notation "m ;;; k" := (ui_bind m (fun _ => k))
  (at level 61, right associativity).

(** [try: body except Exception as e: handler(e)].  Every exception of the
    model derives from [Exception], so the handler sees all of them. *)
Definition try_except {A} (body : ui A) (handler : exn -> ui A) : ui A :=
  match body with
  | (log, Ok a) => (log, Ok a)
  | (log, Raise e) => let (log', r) := handler e in ((log ++ log')%list, r)
  end.

(** ** HTTP responses *)

(** A response as the scripts use it: the status code, and what
    [response.json()] gives for the body ([Raise JSONDecodeError] for a body
    that is not JSON). *)
Record response : Type := mkResponse {
  status_code : Z;
  json : result pyval
}.

(** [Response.raise_for_status()] of the requests library raises [HTTPError]
    for the client-error and server-error classes, 400 to 599. *)
Definition raise_for_status (r : response) : result unit :=
  if (400 <=? status_code r) && (status_code r <? 600)
  then Raise (HTTPError (status_code r))
  else Ok tt.

(** [v[key]] with a string key. *)
Definition getitem (v : pyval) (key : string) : result pyval :=
  match v with
  | PyDict d =>
      match dict_get key d with
      | Some x => Ok x
      | None => Raise (KeyError key)
      end
  | _ => Raise TypeError
  end.

(** [v == s] for a string literal [s]. *)
Definition eq_str (v : pyval) (s : string) : bool :=
  match v with PyStr t => String.eqb t s | _ => false end.

(** ** DataFrames *)

Definition record : Type := list (string * pyval).

Record DataFrame : Type := mkDF {
  nrows : nat;
  cols : list (string * list pyval)
}.

Definition columns (df : DataFrame) : list string := map fst (cols df).

(** [c in df.columns] *)
Definition has_column (c : string) (df : DataFrame) : bool :=
  dict_has c (cols df).

(** [df[c]] *)
Definition get_column (c : string) (df : DataFrame) : result (list pyval) :=
  match dict_get c (cols df) with
  | Some col => Ok col
  | None => Raise (KeyError c)
  end.

(** [df[c] = values] *)
Definition set_column (c : string) (values : list pyval) (df : DataFrame)
  : DataFrame :=
  mkDF (nrows df) (dict_set c values (cols df)).

(** [df[c] = v] for a scalar [v]: the value in every row. *)
Definition set_scalar (c : string) (v : pyval) (df : DataFrame) : DataFrame :=
  set_column c (repeat v (nrows df)) df.

Definition mem_str (k : string) (l : list string) : bool :=
  existsb (String.eqb k) l.

(** Keys of the records in the order in which they are first seen. *)
Fixpoint union_keys (seen ks : list string) : list string :=
  match ks with
  | [] => seen
  | k :: rest =>
      union_keys (if mem_str k seen then seen else seen ++ [k]) rest
  end.

Definition record_columns (items : list record) : list string :=
  fold_left (fun seen item => union_keys seen (map fst item)) items [].

(** The cell of a record in column [c]: NaN if the record lacks the key. *)
Definition cell (c : string) (item : record) : pyval :=
  match dict_get c item with
  | Some v => v
  | None => NaN
  end.

(** [pd.DataFrame(items)] for a list of dicts. *)
Definition of_records (items : list record) : DataFrame :=
  mkDF (List.length items)
       (map (fun c => (c, map (cell c) items)) (record_columns items)).

(** Keep the entries of [l] where the mask is true. *)
Fixpoint keep {A} (mask : list bool) (l : list A) : list A :=
  match mask, l with
  | b :: mask', x :: l' => if b then x :: keep mask' l' else keep mask' l'
  | _, _ => []
  end.

(** [df[mask]] for a boolean column [mask]. *)
Definition select_rows (mask : list bool) (df : DataFrame) : DataFrame :=
  mkDF (List.length (keep mask (repeat tt (nrows df))))
       (map (fun cv => (fst cv, keep mask (snd cv))) (cols df)).

(** [df[df[c] == selected]] *)
Definition filter_eq (c : string) (selected : pyval -> bool) (df : DataFrame)
  : result DataFrame :=
  col <- get_column c df ;;
  Ok (select_rows (map selected col) df).

(** Every column has one cell per row. *)
Definition aligned (df : DataFrame) : Prop :=
  Forall (fun cv => List.length (snd cv) = nrows df) (cols df).

(** *** Sum of an integer column *)

Definition int_of (v : pyval) : Z :=
  match v with
  | PyInt z => z
  | PyBool true => 1
  | _ => 0
  end.

Definition sum_cells (col : list pyval) : Z :=
  fold_right (fun v acc => int_of v + acc) 0 col.

(** *** Group and sum *)

(** Equality of group keys, as Python's [==]: numbers (bools, ints, floats)
    are compared by value, NaN equals nothing, strings and dates are compared
    with their own kind.  Lists and dicts are not hashable and cannot be
    keys. *)
Definition as_number (v : pyval) : option pyfloat :=
  match v with
  | PyBool b => Some (FFin (if b then 1 else 0)%Q)
  | PyInt z => Some (FFin (inject_Z z))
  | PyFloat f => Some f
  | _ => None
  end.

Definition float_eqb (f g : pyfloat) : bool :=
  match f, g with
  | FFin q, FFin r => Qeq_bool q r
  | FInf a, FInf b => Bool.eqb a b
  | _, _ => false
  end.

Definition date_eqb (a b : date) : bool :=
  (d_year a =? d_year b) && Nat.eqb (d_month a) (d_month b)
  && Nat.eqb (d_day a) (d_day b).

Definition key_eqb (a b : pyval) : bool :=
  match as_number a, as_number b with
  | Some f, Some g => float_eqb f g
  | None, None =>
      match a, b with
      | PyStr s, PyStr t => String.eqb s t
      | PyDate s, PyDate t => date_eqb s t
      | _, _ => false
      end
  | _, _ => false
  end.

(** Add [v] to the running sum of group [k], opening the group if new. *)
Fixpoint add_to_group (k : pyval) (v : Z) (groups : list (pyval * Z))
  : list (pyval * Z) :=
  match groups with
  | [] => [(k, v)]
  | (k', s) :: rest =>
      if key_eqb k k' then (k', s + v) :: rest
      else (k', s) :: add_to_group k v rest
  end.

(** [groupby(key)[measure].sum()] over the two columns: rows whose key is
    null are left out (pandas' default [dropna=True]).  The groups are listed
    in the order in which their keys first appear; pandas then orders them by
    key, which moves entries and changes none. *)
Fixpoint group_sums (keys measure : list pyval) (groups : list (pyval * Z))
  : list (pyval * Z) :=
  match keys, measure with
  | k :: keys', v :: measure' =>
      group_sums keys' measure'
        (if notna k then add_to_group k (int_of v) groups else groups)
  | _, _ => groups
  end.

Definition groupby_sum (key measure : string) (df : DataFrame)
  : result (list (pyval * Z)) :=
  ks <- get_column key df ;;
  vs <- get_column measure df ;;
  Ok (group_sums ks vs []).

Definition total (groups : list (pyval * Z)) : Z :=
  fold_right (fun g acc => snd g + acc) 0 groups.

(** *** Ordering and distinct values *)

Definition float_ltb (f g : pyfloat) : bool :=
  match f, g with
  | FFin q, FFin r => negb (Qle_bool r q)
  | FInf true, FFin _ => true
  | FInf true, FInf false => true
  | FFin _, FInf false => true
  | _, _ => false
  end.

(** Python's [a < b]: defined between numbers, between strings and between
    dates; any other pair raises [TypeError]. *)
Definition py_lt (a b : pyval) : result bool :=
  match as_number a, as_number b with
  | Some f, Some g => Ok (float_ltb f g)
  | None, None =>
      match a, b with
      | PyStr s, PyStr t => Ok (String.ltb s t)
      | PyDate s, PyDate t =>
          Ok ((d_year s <? d_year t)
              || (d_year s =? d_year t)
                 && (Nat.ltb (d_month s) (d_month t)
                     || Nat.eqb (d_month s) (d_month t)
                        && Nat.ltb (d_day s) (d_day t)))
      | _, _ => Raise TypeError
      end
  | _, _ => Raise TypeError
  end.

(** Insert [x] after the entries that are not greater than it. *)
Fixpoint insert_sorted (x : pyval) (l : list pyval) : result (list pyval) :=
  match l with
  | [] => Ok [x]
  | y :: rest =>
      lt <- py_lt x y ;;
      if lt then Ok (x :: y :: rest)
      else (rest' <- insert_sorted x rest ;; Ok (y :: rest'))
  end.

(** [sorted(l)] *)
Fixpoint sorted (l : list pyval) : result (list pyval) :=
  match l with
  | [] => Ok []
  | x :: rest => rest' <- sorted rest ;; insert_sorted x rest'
  end.

(** [Series.unique()]: the distinct values in order of first appearance;
    the nulls count as one value. *)
Definition same_value (a b : pyval) : bool :=
  key_eqb a b || isna a && isna b.

Fixpoint unique_from (seen l : list pyval) : list pyval :=
  match l with
  | [] => []
  | x :: rest =>
      if existsb (same_value x) seen then unique_from seen rest
      else x :: unique_from (x :: seen) rest
  end.

Definition unique (l : list pyval) : list pyval := unique_from [] l.

(** *** Numeric coercion *)

(** What [pd.to_numeric] makes of one cell. *)
Inductive num : Type :=
| NInt (z : Z)
| NFloat (f : pyfloat).

(** Rounding toward zero, as [astype(int)] does on a float. *)
Definition Qtrunc (q : Q) : Z := Z.quot (Qnum q) (Zpos (Qden q)).

(** [astype(int)] on one cell: pandas refuses the non-finite floats. *)
Definition astype_int (n : num) : result Z :=
  match n with
  | NInt z => Ok z
  | NFloat (FFin q) => Ok (Qtrunc q)
  | NFloat (FInf _) => Raise IntCastingNaNError
  | NFloat FNaN => Raise IntCastingNaNError
  end.

(** [fillna(0)] on one cell. *)
Definition fillna0 (n : num) : num :=
  match n with
  | NFloat FNaN => NFloat (FFin 0)
  | _ => n
  end.

(** Run a fallible conversion over a column; the first failure raises. *)
Fixpoint map_result {A B} (f : A -> result B) (l : list A) : result (list B) :=
  match l with
  | [] => Ok []
  | x :: rest =>
      y <- f x ;;
      ys <- map_result f rest ;;
      Ok (y :: ys)
  end.

(** *** Facet filters *)

(** One step of "Apply filters",
    [if selected != wildcard: df = df[df[c] == selected]]: no constraint under
    the wildcard, equality with the selected value otherwise. *)
Definition facet_step (wildcard c : string) (selected : pyval)
    (df : DataFrame) : result DataFrame :=
  if negb (eq_str selected wildcard)
  then filter_eq c (fun v => key_eqb v selected) df
  else Ok df.

(** *** Float columns *)

Definition f_opp (f : pyfloat) : pyfloat :=
  match f with
  | FFin q => FFin (- q)
  | FInf s => FInf (negb s)
  | FNaN => FNaN
  end.

Definition f_add (f g : pyfloat) : pyfloat :=
  match f, g with
  | FFin q, FFin r => FFin (q + r)
  | FFin _, FInf s => FInf s
  | FInf s, FFin _ => FInf s
  | FInf s, FInf t => if Bool.eqb s t then FInf s else FNaN
  | _, _ => FNaN
  end.

Definition f_sub (f g : pyfloat) : pyfloat := f_add f (f_opp g).

(** The sign of a finite value: [None] for zero, else whether negative. *)
Definition q_sign (q : Q) : option bool :=
  match Qnum q with
  | Z0 => None
  | Zpos _ => Some false
  | Zneg _ => Some true
  end.

Definition f_mul (f g : pyfloat) : pyfloat :=
  match f, g with
  | FFin q, FFin r => FFin (q * r)
  | FFin q, FInf s | FInf s, FFin q =>
      match q_sign q with
      | None => FNaN
      | Some t => FInf (xorb s t)
      end
  | FInf s, FInf t => FInf (xorb s t)
  | _, _ => FNaN
  end.

(** Division as numpy does it on a float column: a non-zero value over zero
    is an infinity, zero over zero is NaN, nothing raises.  The sign of a
    zero is not modelled: a zero divisor counts as positive. *)
Definition f_div (f g : pyfloat) : pyfloat :=
  match f, g with
  | FFin q, FFin r =>
      match q_sign r with
      | Some _ => FFin (q / r)
      | None =>
          match q_sign q with
          | None => FNaN
          | Some s => FInf s
          end
      end
  | FFin _, FInf _ => FFin 0
  | FInf s, FFin r =>
      match q_sign r with
      | Some t => FInf (xorb s t)
      | None => FInf s
      end
  | _, _ => FNaN
  end.

(** A cell of a numeric column read as a float; anything else is NaN. *)
Definition to_float (v : pyval) : pyfloat :=
  match as_number v with
  | Some f => f
  | None => FNaN
  end.

Fixpoint zip_with {A B C} (f : A -> B -> C) (l : list A) (m : list B)
  : list C :=
  match l, m with
  | x :: l', y :: m' => f x y :: zip_with f l' m'
  | _, _ => []
  end.

(** [Series.shift(1)]: every row gets the value of the row before it, the
    first row gets NaN. *)
Fixpoint shift_from (previous : pyval) (col : list pyval) : list pyval :=
  match col with
  | [] => []
  | x :: rest => previous :: shift_from x rest
  end.

Definition shift1 (col : list pyval) : list pyval := shift_from NaN col.

(** [df.dropna()]: keep the rows that have no null in any column. *)
Definition complete_rows (df : DataFrame) : list bool :=
  fold_right (fun cv mask => zip_with andb (map notna (snd cv)) mask)
             (repeat true (nrows df)) (cols df).

Definition dropna (df : DataFrame) : DataFrame :=
  select_rows (complete_rows df) df.

(** * Inventory dashboard (main.py) *)

Module Inventory.

Section Library.

(** [json.loads] on a string: [None] stands for [JSONDecodeError]. *)
Variable json_loads : string -> option pyval.

(** The number that [pd.to_numeric] reads in a string, [None] if it reads
    none. *)
Variable str_to_num : string -> option num.

(** [fetch_store_data], given what [requests.get(api_url)] does: it returns
    a response or raises. *)
Definition fetch_store_data (get : result response) : ui pyval :=
  try_except
    (response <-- lift get ;;;
     lift (raise_for_status response) ;;;
     data <-- lift (json response) ;;;
     status <-- lift (getitem data "status") ;;;
     if eq_str status "success" then
       payload <-- lift (getitem data "data") ;;;
       match payload with
       | PyStr text =>
           match json_loads text with
           | Some v => ret v
           | None =>
               say (StError "Error parsing JSON data: {}" (ArgExn JSONDecodeError)) ;;;
               ret (PyDict [])
           end
       | _ => ret payload
       end
     else
       say (StError "API returned error status: {}" (ArgVal status)) ;;;
       ret (PyDict []))
    (fun e =>
       say (StError "Error fetching data: {}" (ArgExn e)) ;;;
       ret (PyDict [])).

(** [pd.to_numeric(..., errors="coerce")] on one cell: numbers stay, a
    string is read as a number if it is one, everything else becomes NaN.
    Date cells do not occur in decoded JSON. *)
Definition to_numeric (v : pyval) : num :=
  match v with
  | PyInt z => NInt z
  | PyBool b => NInt (if b then 1 else 0)
  | PyFloat f => NFloat f
  | PyStr s =>
      match str_to_num s with
      | Some n => n
      | None => NFloat FNaN
      end
  | _ => NFloat FNaN
  end.

(** One cell through [to_numeric(errors="coerce").fillna(0).astype(int)]. *)
Definition coerce_count (v : pyval) : result pyval :=
  z <- astype_int (fillna0 (to_numeric v)) ;;
  Ok (PyInt z).

(** The payload: store names with their item records, in dict order. *)
Definition payload : Type := list (string * list record).

(** The two loops that fill [all_items]. *)
Definition all_items (stores_data : payload) : list record :=
  flat_map
    (fun entry =>
       map (fun item => dict_set "store_name" (PyStr (strip (fst entry))) item)
           (snd entry))
    stores_data.

(** [if c not in df.columns: df[c] = "Unknown"] *)
Definition default_unknown (c : string) (df : DataFrame) : DataFrame :=
  if negb (has_column c df) then set_scalar c (PyStr "Unknown") df else df.

Definition process_store_data (stores_data : payload) : result DataFrame :=
  let df := of_records (all_items stores_data) in
  let df := default_unknown "category" df in
  let df := default_unknown "collection" df in
  let df := default_unknown "gender" df in
  let df := default_unknown "size" df in
  raw <- get_column "count" df ;;
  counts <- map_result coerce_count raw ;;
  Ok (set_column "count" counts df).

(** The [try] block of [fetch_store_data] past [raise_for_status], with its
    handler. *)
Definition decode (r : response) : ui pyval :=
  try_except
    (data <-- lift (json r) ;;;
     status <-- lift (getitem data "status") ;;;
     if eq_str status "success" then
       payload <-- lift (getitem data "data") ;;;
       match payload with
       | PyStr text =>
           match json_loads text with
           | Some v => ret v
           | None =>
               say (StError "Error parsing JSON data: {}" (ArgExn JSONDecodeError)) ;;;
               ret (PyDict [])
           end
       | _ => ret payload
       end
     else
       say (StError "API returned error status: {}" (ArgVal status)) ;;;
       ret (PyDict []))
    (fun e =>
       say (StError "Error fetching data: {}" (ArgExn e)) ;;;
       ret (PyDict [])).

(** The ways a fetch fails: the GET raises, the status is a client or
    server error, the body is not JSON, the envelope has no "success"
    status or no data, or the data is a string that does not decode. *)
Inductive fetch_failure : result response -> Prop :=
| network_error e :
    fetch_failure (Raise e)
| http_error r :
    400 <= status_code r < 600 ->
    fetch_failure (Ok r)
| malformed_body r e :
    json r = Raise e ->
    fetch_failure (Ok r)
| no_status r data e :
    json r = Ok data -> getitem data "status" = Raise e ->
    fetch_failure (Ok r)
| status_not_success r data status :
    json r = Ok data -> getitem data "status" = Ok status ->
    eq_str status "success" = false ->
    fetch_failure (Ok r)
| no_data r data status e :
    json r = Ok data -> getitem data "status" = Ok status ->
    eq_str status "success" = true ->
    getitem data "data" = Raise e ->
    fetch_failure (Ok r)
| second_parse_failed r data status text :
    json r = Ok data -> getitem data "status" = Ok status ->
    eq_str status "success" = true ->
    getitem data "data" = Ok (PyStr text) -> json_loads text = None ->
    fetch_failure (Ok r).

(** A success envelope whose data is [payload]. *)
Definition success_envelope (r : response) (payload : pyval) : Prop :=
  exists data status,
    json r = Ok data /\ getitem data "status" = Ok status
    /\ eq_str status "success" = true /\ getitem data "data" = Ok payload.

End Library.

(** One error is reported and the empty mapping returned. *)
Definition reports_empty (out : ui pyval) : Prop :=
  snd out = Ok (PyDict []) /\ exists text arg, fst out = [StError text arg].

(** The item records of a payload, store after store. *)
Definition records (stores_data : payload) : list record :=
  flat_map snd stores_data.

(** The four categorical columns. *)
Definition categorical : list string :=
  ["category"; "collection"; "gender"; "size"].

(** No count of the payload reads as an infinity. *)
Definition finite_counts (str_to_num : string -> option num)
    (stores_data : payload) : bool :=
  forallb (fun r =>
             match to_numeric str_to_num (cell "count" r) with
             | NFloat (FInf _) => false
             | _ => true
             end)
          (records stores_data).


(** The options of the sidebar selectors. *)
Definition all_stores (df : DataFrame) : result (list pyval) :=
  col <- get_column "store_name" df ;;
  names <- sorted (unique col) ;;
  Ok (PyStr "All Stores" :: names).

(** [wildcard + sorted(df[df[c].notna()][c].unique().tolist())] *)
Definition facet_options (wildcard c : string) (df : DataFrame)
  : result (list pyval) :=
  col <- get_column c df ;;
  present <- get_column c (select_rows (map notna col) df) ;;
  values <- sorted (unique present) ;;
  Ok (PyStr wildcard :: values).

Definition all_categories := facet_options "All Categories" "category".

Definition filtered_df (df : DataFrame)
    (selected_store selected_category selected_collection selected_gender
       : pyval) : result DataFrame :=
  f <- facet_step "All Stores" "store_name" selected_store df ;;
  f <- facet_step "All Categories" "category" selected_category f ;;
  f <- facet_step "All Collections" "collection" selected_collection f ;;
  facet_step "All Genders" "gender" selected_gender f.

(** [sort_values(by="count", ascending=False)] on the grouped table.  Rows
    with equal counts stay in their order here; pandas leaves their order
    open. *)
Fixpoint insert_desc (g : pyval * Z) (l : list (pyval * Z))
  : list (pyval * Z) :=
  match l with
  | [] => [g]
  | h :: rest =>
      if snd h <? snd g then g :: h :: rest else h :: insert_desc g rest
  end.

Definition sort_desc (l : list (pyval * Z)) : list (pyval * Z) :=
  fold_right insert_desc [] l.

(** [total_items = filtered_df["count"].sum()] *)
Definition total_items (df : DataFrame) : result Z :=
  col <- get_column "count" df ;;
  Ok (sum_cells col).

(** [df.groupby(c)["count"].sum().reset_index()] followed by the sort on
    count, as for [store_inventory] and the other per-column charts. *)
Definition inventory_by (c : string) (df : DataFrame)
  : result (list (pyval * Z)) :=
  groups <- groupby_sum c "count" df ;;
  Ok (sort_desc groups).

Definition store_inventory := inventory_by "store_name".

End Inventory.

(** * Sales dashboard (sales-report.py) *)

Module Sales.

(** [categorize_product], the function nested in [load_data]. *)
Definition categorize_product (name : pyval) : string :=
  match name with
  | PyStr name =>
      if str_in "Kimono" name then "Kimono Jacket"
      else if str_in "Gilet" name then "Gilet Jacket"
      else if str_in "TP Jacket" name || str_in "Trucker Jacket" name
           then "TP/Trucker Jacket"
      else if str_in "Tote" name then "Tote Bag"
      else if str_in "Hat" name then "Campaign Hats"
      else if str_in "Shorts" name then "Shorts"
      else if str_in "Jeans" name then "Jeans"
      else if str_in "Skirt" name then "Skirt"
      else if str_in "Bottle" name then "Bottle Sling"
      else if str_in "DRESS" name then "Dress"
      else "Other"
  | _ => "Unknown"
  end.

(** The rule list as the specification words it: each rule has the needles
    that trigger it and its label; the rules are tried from the top. *)
Definition category_rules : list (list string * string) :=
  [ (["Kimono"], "Kimono Jacket");
    (["Gilet"], "Gilet Jacket");
    (["TP Jacket"; "Trucker Jacket"], "TP/Trucker Jacket");
    (["Tote"], "Tote Bag");
    (["Hat"], "Campaign Hats");
    (["Shorts"], "Shorts");
    (["Jeans"], "Jeans");
    (["Skirt"], "Skirt");
    (["Bottle"], "Bottle Sling");
    (["DRESS"], "Dress") ].

Definition rule_matches (name : string) (r : list string * string) : bool :=
  existsb (fun needle => str_in needle name) (fst r).

(** First matching rule wins; no rule gives "Other". *)
Definition first_match_label (name : string) : string :=
  match find (rule_matches name) category_rules with
  | Some r => snd r
  | None => "Other"
  end.

Definition category_labels : list string :=
  [ "Kimono Jacket"; "Gilet Jacket"; "TP/Trucker Jacket"; "Tote Bag";
    "Campaign Hats"; "Shorts"; "Jeans"; "Skirt"; "Bottle Sling"; "Dress";
    "Other"; "Unknown" ].

(** [df['item_name'].apply(categorize_product)] *)
Definition apply_categorize (item_name : list pyval) : list pyval :=
  map (fun v => PyStr (categorize_product v)) item_name.

(** The [try] block of [load_data]: afterwards the local [json_data] is
    bound ([Some]) only if the GET returned status 200 and its body
    decoded. *)
Definition fetch_json (get : result response) : ui (option pyval) :=
  try_except
    (response <-- lift get ;;;
     if status_code response =? 200 then
       json_data <-- lift (json response) ;;;
       ret (Some json_data)
     else
       say (StWarning "API returned status code {}. Using fallback data."
                      (ArgInt (status_code response))) ;;;
       ret None)
    (fun e =>
       say (StWarning "Could not fetch data from API: {}. Using fallback data."
                      (ArgExn e)) ;;;
       ret None).

(** The GET raised, or it returned a status code other than 200. *)
Definition fetch_failed (get : result response) : Prop :=
  match get with
  | Raise _ => True
  | Ok response => status_code response <> 200
  end.

(** Reading a local variable that no path has assigned. *)
Definition read_local (name : string) (v : option pyval) : result pyval :=
  match v with
  | Some x => Ok x
  | None => Raise (UnboundLocalError name)
  end.

Fixpoint as_records (l : list pyval) : option (list record) :=
  match l with
  | [] => Some []
  | PyDict d :: rest =>
      match as_records rest with
      | Some rs => Some (d :: rs)
      | None => None
      end
  | _ :: _ => None
  end.

(** [pd.DataFrame(data)] for the list of records the API sends.  Any other
    shape is outside the API's contract; it is modelled as the constructor's
    [ValueError]. *)
Definition frame_of (data : pyval) : result DataFrame :=
  match data with
  | PyList l =>
      match as_records l with
      | Some rs => Ok (of_records rs)
      | None => Raise ValueError
      end
  | _ => Raise ValueError
  end.

Definition month_abbr : list string :=
  ["Jan"; "Feb"; "Mar"; "Apr"; "May"; "Jun";
   "Jul"; "Aug"; "Sep"; "Oct"; "Nov"; "Dec"].

Definition year_string (y : Z) : string :=
  DecimalString.NilZero.string_of_int (Z.to_int y).

(** [strftime('%b')], [.dt.year] and [strftime('%b %Y')] on one cell of the
    date column; a NaT cell gives a null. *)
Definition strftime_b (v : pyval) : pyval :=
  match v with
  | PyDate t => PyStr (nth (pred (d_month t)) month_abbr "")
  | _ => NaN
  end.

Definition dt_year (v : pyval) : pyval :=
  match v with
  | PyDate t => PyInt (d_year t)
  | _ => NaN
  end.

Definition strftime_b_Y (v : pyval) : pyval :=
  match v with
  | PyDate t =>
      PyStr (nth (pred (d_month t)) month_abbr "" ++ " "
             ++ year_string (d_year t))%string
  | _ => NaN
  end.

(** [.str.strip()] on one cell: a cell that is not a string gives NaN. *)
Definition str_strip (v : pyval) : pyval :=
  match v with
  | PyStr s => PyStr (strip s)
  | _ => NaN
  end.

Section Library.

(** [pd.to_datetime] on one cell: a date, NaT ([None]) for a null, or an
    error for a value that is no date. *)
Variable to_datetime : pyval -> result (option date).

Definition date_cell (v : pyval) : result pyval :=
  d <- to_datetime v ;;
  Ok (match d with Some t => PyDate t | None => PyNaT end).

(** The part of [load_data] after the [try] block, from the value of the
    local [json_data]. *)
Definition normalize (json_data : option pyval) : ui DataFrame :=
  json_data <-- lift (read_local "json_data" json_data) ;;;
  data <-- lift (getitem json_data "data") ;;;
  df <-- lift (frame_of data) ;;;
  df <-- (if has_column "month" df then
            month <-- lift (get_column "month" df) ;;;
            dates <-- lift (map_result date_cell month) ;;;
            ret (set_column "date" dates df)
          else
            say (StWarning
                   "No 'month' field found in data. Please check API structure."
                   ArgNone) ;;;
            ret (set_scalar "date" (PyDate (mkDate 2025 1 1)) df)) ;;;
  dates <-- lift (get_column "date" df) ;;;
  let df := set_column "month_name" (map strftime_b dates) df in
  let df := set_column "year" (map dt_year dates) df in
  let df := set_column "month_year" (map strftime_b_Y dates) df in
  store_name <-- lift (get_column "store_name" df) ;;;
  let df := set_column "store_name" (map str_strip store_name) df in
  item_name <-- lift (get_column "item_name" df) ;;;
  ret (set_column "product_category" (apply_categorize item_name) df).

Definition load_data (get : result response) : ui DataFrame :=
  json_data <-- fetch_json get ;;;
  normalize json_data.

End Library.

(** The sidebar selectors. *)

(** [years = sorted(df['year'].unique(), reverse=True)], the options of the
    year selector. *)
Definition years (df : DataFrame) : result (list pyval) :=
  col <- get_column "year" df ;;
  ascending <- sorted (unique col) ;;
  Ok (rev ascending).

Definition months : list pyval :=
  PyStr "All Months" :: map PyStr month_abbr.

Definition all_stores_option (df : DataFrame) : result (list pyval) :=
  col <- get_column "store_name" df ;;
  all_stores <- sorted (unique col) ;;
  Ok (PyStr "All Stores" :: all_stores).

Definition all_categories (df : DataFrame) : result (list pyval) :=
  col <- get_column "product_category" df ;;
  values <- sorted (unique col) ;;
  Ok (PyStr "All Categories" :: values).

(** "Apply filters": the year filter has no guard. *)
Definition filtered_df (df : DataFrame)
    (selected_year selected_month selected_store selected_category : pyval)
  : result DataFrame :=
  f <- filter_eq "year" (fun v => key_eqb v selected_year) df ;;
  f <- facet_step "All Months" "month_name" selected_month f ;;
  f <- facet_step "All Stores" "store_name" selected_store f ;;
  facet_step "All Categories" "product_category" selected_category f.

(** The month-over-month chart of the "Time Trends" tab. *)

(** [monthly_quantity] once sorted by date: a label, its date and the total
    of the month, one row per month in time order. *)
Definition monthly_row : Type := (string * date * Q)%type.

Definition monthly_quantity (rows : list monthly_row) : DataFrame :=
  mkDF (List.length rows)
       [ ("month_year", map (fun r => PyStr (fst (fst r))) rows);
         ("total_quantity", map (fun r => PyFloat (FFin (snd r))) rows);
         ("sort_date", map (fun r => PyDate (snd (fst r))) rows) ].

(** [(total - previous) / previous * 100] on one row. *)
Definition growth_rate (total previous : pyval) : pyval :=
  PyFloat (f_mul (f_div (f_sub (to_float total) (to_float previous))
                        (to_float previous))
                 (FFin 100)).

(** The table handed to [px.bar]: [None] when the chart is not drawn. *)
Definition growth_chart (monthly_quantity : DataFrame)
  : result (option DataFrame) :=
  if (1 <? nrows monthly_quantity)%nat then
    total_quantity <- get_column "total_quantity" monthly_quantity ;;
    let df := set_column "previous_quantity" (shift1 total_quantity)
                         monthly_quantity in
    total_quantity <- get_column "total_quantity" df ;;
    previous_quantity <- get_column "previous_quantity" df ;;
    let df := set_column "growth_rate"
                (zip_with growth_rate total_quantity previous_quantity) df in
    Ok (Some (dropna df))
  else Ok None.

(** The bars of the chart: the [growth_rate] column of that table. *)
Definition growth_series (rows : list monthly_row) : result (list pyval) :=
  chart <- growth_chart (monthly_quantity rows) ;;
  match chart with
  | Some df => get_column "growth_rate" df
  | None => Ok []
  end.

(** The total of a row as a cell of the table. *)
Definition total_cell (r : monthly_row) : pyval := PyFloat (FFin (snd r)).

(** The rows that [dropna] keeps, from the five columns of the growth
    table. *)
Definition growth_mask (previous : pyval) (rows : list monthly_row)
  : list bool :=
  zip_with andb (map notna (map (fun r => PyStr (fst (fst r))) rows))
    (zip_with andb (map notna (map total_cell rows))
       (zip_with andb (map notna (map (fun r => PyDate (snd (fst r))) rows))
          (zip_with andb
             (map notna (shift_from previous (map total_cell rows)))
             (zip_with andb
                (map notna
                   (zip_with growth_rate (map total_cell rows)
                      (shift_from previous (map total_cell rows))))
                (repeat true (List.length rows)))))).

(** The growth rates as the specification words them: one rate for every
    month but the first, [(total - previous) / previous * 100]. *)
Definition rate (previous total : Q) : pyfloat :=
  f_mul (f_div (f_sub (FFin total) (FFin previous)) (FFin previous))
        (FFin 100).

Fixpoint rates_from (previous : Q) (totals : list Q) : list pyfloat :=
  match totals with
  | [] => []
  | total :: rest => rate previous total :: rates_from total rest
  end.

Definition rates (totals : list Q) : list pyfloat :=
  match totals with
  | [] => []
  | first :: rest => rates_from first rest
  end.

Definition is_nan (f : pyfloat) : bool :=
  match f with FNaN => true | _ => false end.

(** A rate that [dropna] keeps. *)
Definition kept (f : pyfloat) : bool := negb (is_nan f).

(** No month with total zero directly follows a month with total zero. *)
Fixpoint no_zero_pair_from (previous : Q) (totals : list Q) : bool :=
  match totals with
  | [] => true
  | total :: rest =>
      negb (Qeq_bool previous 0 && Qeq_bool total 0)
      && no_zero_pair_from total rest
  end.

Definition no_zero_pair (totals : list Q) : bool :=
  match totals with
  | [] => true
  | first :: rest => no_zero_pair_from first rest
  end.

End Sales.

(** * Instances and sample data *)

Module Samples.

(** A reader of decimal integer literals with an optional sign and
    surrounding blanks: the strings of this form are read by
    [pd.to_numeric] as these integers.  It serves to run the normalizer on
    concrete payloads. *)
Definition digit_of (c : ascii) : option Z :=
  let n := nat_of_ascii c in
  if ((48 <=? n) && (n <=? 57))%nat then Some (Z.of_nat n - 48) else None.

Fixpoint digits (acc : Z) (s : string) : option Z :=
  match s with
  | EmptyString => Some acc
  | String c rest =>
      match digit_of c with
      | Some d => digits (10 * acc + d) rest
      | None => None
      end
  end.

Definition int_literal (s : string) : option num :=
  match strip s with
  | EmptyString => None
  | String "-" (String c rest) =>
      option_map (fun z => NInt (- z)) (digits 0 (String c rest))
  | String "+" (String c rest) =>
      option_map NInt (digits 0 (String c rest))
  | t => option_map NInt (digits 0 t)
  end.

(** A decoder for the two JSON texts of the examples, the empty object and
    the empty array; it rejects every other text. *)
Definition loads_empty (s : string) : option pyval :=
  if String.eqb (strip s) "{}" then Some (PyDict [])
  else if String.eqb (strip s) "[]" then Some (PyList [])
  else None.

(** A date reader for cells that hold a [YYYY-MM] string with an optional
    [-DD]; nulls give NaT. *)
Definition two_digits (a b : ascii) : option Z :=
  match digit_of a, digit_of b with
  | Some x, Some y => Some (10 * x + y)
  | _, _ => None
  end.

Definition iso_date (v : pyval) : result (option date) :=
  match v with
  | PyStr (String y1 (String y2 (String y3 (String y4
       (String "-" (String m1 (String m2 rest))))))) =>
      match two_digits y1 y2, two_digits y3 y4, two_digits m1 m2 with
      | Some c, Some y, Some m =>
          if (1 <=? m) && (m <=? 12) then
            match rest with
            | EmptyString => Ok (Some (mkDate (100 * c + y) (Z.to_nat m) 1))
            | String "-" (String d1 (String d2 EmptyString)) =>
                match two_digits d1 d2 with
                | Some d =>
                    if (1 <=? d) && (d <=? 31)
                    then Ok (Some (mkDate (100 * c + y) (Z.to_nat m) (Z.to_nat d)))
                    else Raise ValueError
                | None => Raise ValueError
                end
            | _ => Raise ValueError
            end
          else Raise ValueError
      | _, _, _ => Raise ValueError
      end
  | PyStr _ => Raise ValueError
  | v => if isna v then Ok None else Raise TypeError
  end.

(** The end-to-end scenario of the specification. *)
Definition two_stores : Inventory.payload :=
  [ ("Store A", [ [("category", PyStr "Tops"); ("count", PyStr "5")] ]);
    ("Store B", [ [("category", PyStr "Tops"); ("count", PyInt 3)] ]) ].

(** One record has a category, the other has none; one count is missing. *)
Definition partial_store : Inventory.payload :=
  [ ("Store A ", [ [("category", PyStr "Tops"); ("count", PyInt 5)];
                   [("count", PyInt 3)];
                   [("collection", PyStr "SS25")] ]) ].


(** No record carries a count. *)
Definition no_count : Inventory.payload :=
  [ ("Store A", [ [("category", PyStr "Tops")] ]) ].

(** Two sales records in different years. *)
Definition sales_body : pyval :=
  PyDict [ ("data", PyList [
    PyDict [ ("store_name", PyStr " Mall "); ("item_name", PyStr "Kimono Gilet Jacket");
             ("month", PyStr "2024-11"); ("total_quantity", PyInt 4);
             ("average_price", PyInt 100); ("total_value", PyInt 400) ];
    PyDict [ ("store_name", PyStr "Mall"); ("item_name", PyStr "Denim Jeans");
             ("month", PyStr "2025-01"); ("total_quantity", PyInt 2);
             ("average_price", PyInt 50); ("total_value", PyInt 100) ] ]) ].

(** Status 300 (Multiple Choices) with a success envelope in the body. *)
Definition multiple_choices : response :=
  mkResponse 300
    (Ok (PyDict [ ("status", PyStr "success");
                  ("data", PyDict [ ("Store A",
                     PyList [ PyDict [("count", PyInt 1)] ]) ]) ])).

(** Status 404 with an error page that is not JSON. *)
Definition not_found : response := mkResponse 404 (Raise JSONDecodeError).

Definition two_stores_table : DataFrame :=
  Eval vm_compute in
    match Inventory.process_store_data int_literal two_stores with
    | Ok df => df
    | Raise _ => mkDF 0 []
    end.

Definition partial_table : DataFrame :=
  Eval vm_compute in
    match Inventory.process_store_data int_literal partial_store with
    | Ok df => df
    | Raise _ => mkDF 0 []
    end.


Definition sales_get : result response :=
  Ok (mkResponse 200 (Ok sales_body)).

(** The normalized sales table of [sales_body]. *)
Definition sales_table : DataFrame :=
  Eval vm_compute in
    match snd (Sales.load_data iso_date sales_get) with
    | Ok df => df
    | Raise _ => mkDF 0 []
    end.

(** The server answers 503. *)
Definition sales_unavailable : result response :=
  Ok (mkResponse 503 (Raise JSONDecodeError)).

(** Monthly totals 10, 15, 12, and a quarter that starts with two empty
    months. *)
Definition spring : list Sales.monthly_row :=
  [ ("Jan 2025", mkDate 2025 1 1, 10%Q);
    ("Feb 2025", mkDate 2025 2 1, 15%Q);
    ("Mar 2025", mkDate 2025 3 1, 12%Q) ].

Definition slow_start : list Sales.monthly_row :=
  [ ("Jan 2025", mkDate 2025 1 1, 0%Q);
    ("Feb 2025", mkDate 2025 2 1, 0%Q);
    ("Mar 2025", mkDate 2025 3 1, 5%Q) ].

End Samples.

(** * Further views of the two pages *)

(** ** Lists without the Python wrapping

    Plain counterparts of [sorted], [unique] and the group sums, used to say
    what those compute on columns of strings and of integers. *)

Module Plain.

Fixpoint insert_by {A} (lt : A -> A -> bool) (x : A) (l : list A) : list A :=
  match l with
  | [] => [x]
  | y :: rest => if lt x y then x :: y :: rest else y :: insert_by lt x rest
  end.

Fixpoint sort_by {A} (lt : A -> A -> bool) (l : list A) : list A :=
  match l with
  | [] => []
  | x :: rest => insert_by lt x (sort_by lt rest)
  end.

(** The distinct entries in order of first appearance. *)
Fixpoint distinct_from {A} (eqb : A -> A -> bool) (seen l : list A) : list A :=
  match l with
  | [] => []
  | x :: rest =>
      if existsb (eqb x) seen then distinct_from eqb seen rest
      else x :: distinct_from eqb (x :: seen) rest
  end.

Definition distinct {A} (eqb : A -> A -> bool) (l : list A) : list A :=
  distinct_from eqb [] l.

(** [a] does not come after [b] in the strict order [lt]. *)
Definition not_after {A} (lt : A -> A -> bool) (a b : A) : Prop :=
  lt b a = false.

(** A key column of strings with nulls. *)
Definition key_cell (k : option string) : pyval :=
  match k with
  | Some s => PyStr s
  | None => NaN
  end.

Definition is_key (s : string) (k : option string) : bool :=
  match k with
  | Some t => String.eqb s t
  | None => false
  end.

(** The sum of the measure over the rows whose key is [s]. *)
Fixpoint sum_where (s : string) (keys : list (option string))
    (measure : list pyval) : Z :=
  match keys, measure with
  | k :: keys', v :: measure' =>
      (if is_key s k then int_of v else 0) + sum_where s keys' measure'
  | _, _ => 0
  end.

(** The keys that are present, each once, in order of first appearance. *)
Fixpoint present_keys (seen : list string) (keys : list (option string))
  : list string :=
  match keys with
  | [] => []
  | None :: rest => present_keys seen rest
  | Some s :: rest =>
      if mem_str s seen then present_keys seen rest
      else s :: present_keys (seen ++ [s]) rest
  end.



End Plain.

(** ** Inventory page *)

Module InventoryViews.
Import Inventory.

(** The store key of every item record, in row order. *)
Definition record_stores (stores_data : payload) : list string :=
  flat_map (fun entry => map (fun _ => fst entry) (snd entry)) stores_data.

(** The mask of one facet: every row under the wildcard, the rows equal to
    the selected value otherwise. *)
Definition facet_mask (wildcard : string) (selected : pyval)
    (col : list pyval) : list bool :=
  map (fun v => eq_str selected wildcard || key_eqb v selected) col.

(** Descending order of count. *)
Definition by_count_desc (a b : pyval * Z) : Prop := snd b <= snd a.

(** [top_collections = store_df.groupby("collection")["count"].sum()
      .reset_index().sort_values(by="count", ascending=False).head(10)] *)
Definition top_collections (store_df : DataFrame)
  : result (list (pyval * Z)) :=
  groups <- inventory_by "collection" store_df ;;
  Ok (firstn 10 groups).

(** The truth value of a decoded JSON value: [None], [False], zero, and the
    empty string, list and dict are false. *)
Definition truth (v : pyval) : bool :=
  match v with
  | PyNone => false
  | PyBool b => b
  | PyInt z => negb (z =? 0)
  | PyFloat (FFin q) => negb (Qeq_bool q 0)
  | PyFloat _ => true
  | PyStr s => negb (String.eqb s "")
  | PyList l => match l with [] => false | _ => true end
  | PyDict d => match d with [] => false | _ => true end
  | PyDate _ => true
  | PyNaT => true
  end.

(** The start of the page: fetch, and stop with an error when nothing came.
    [None] stands for [st.stop()]: nothing after it runs. *)
Definition stores_data (fetch : ui pyval) : ui (option pyval) :=
  data <-- fetch ;;;
  if negb (truth data) then
    say (StError "No data available. Please check the API connection."
                 ArgNone) ;;;
    ret None
  else ret (Some data).

End InventoryViews.

(** ** Sales page *)

Module SalesViews.

(** [store_data] of the "Store Performance" tab: the filtered table,
    filtered once more on the selected store unless that is the wildcard. *)
Definition store_data (filtered_df : DataFrame) (selected_store : pyval)
  : result DataFrame :=
  if negb (eq_str selected_store "All Stores")
  then filter_eq "store_name" (fun v => key_eqb v selected_store) filtered_df
  else Ok filtered_df.

(** A response with status 200 whose body is an envelope with the records
    [rs] under "data". *)
Definition delivers (r : response) (rs : list record) : Prop :=
  status_code r = 200
  /\ exists body l,
       json r = Ok body /\ getitem body "data" = Ok (PyList l)
       /\ Sales.as_records l = Some rs.

(** The two halves of [load_data] after the frame is built: the date
    column, and the columns derived from it with the stripped store names
    and the product categories. *)
Definition dated (to_datetime : pyval -> result (option date))
    (df : DataFrame) : ui DataFrame :=
  if has_column "month" df then
    month <-- lift (get_column "month" df) ;;;
    dates <-- lift (map_result (Sales.date_cell to_datetime) month) ;;;
    ret (set_column "date" dates df)
  else
    say (StWarning
           "No 'month' field found in data. Please check API structure."
           ArgNone) ;;;
    ret (set_scalar "date" (PyDate (mkDate 2025 1 1)) df).

Definition derived (df : DataFrame) : ui DataFrame :=
  dates <-- lift (get_column "date" df) ;;;
  let df := set_column "month_name" (map Sales.strftime_b dates) df in
  let df := set_column "year" (map Sales.dt_year dates) df in
  let df := set_column "month_year" (map Sales.strftime_b_Y dates) df in
  store_name <-- lift (get_column "store_name" df) ;;;
  let df := set_column "store_name" (map Sales.str_strip store_name) df in
  item_name <-- lift (get_column "item_name" df) ;;;
  ret (set_column "product_category" (Sales.apply_categorize item_name) df).

(** Some record has a string for its store name: the column then holds
    strings, which [.str.strip()] asks for. *)
Definition named_store (rs : list record) : bool :=
  existsb (fun record => is_str (cell "store_name" record)) rs.

(** Every cell of the month column is read as a date or as NaT. *)
Definition dates_parse (to_datetime : pyval -> result (option date))
    (rs : list record) : Prop :=
  forall v, In v (map (cell "month") rs) -> exists d, to_datetime v = Ok d.

(** [l.index(x)], with Python's [==]. *)
Fixpoint index_of (x : pyval) (l : list pyval) : option nat :=
  match l with
  | [] => None
  | y :: rest =>
      if key_eqb y x then Some 0%nat
      else option_map S (index_of x rest)
  end.

Definition list_index (x : pyval) (l : list pyval) : result nat :=
  match index_of x l with
  | Some i => Ok i
  | None => Raise ValueError
  end.

Definition month_display_order : list pyval :=
  map PyStr ["Jan"; "Feb"; "Mar"; "Apr"; "May"; "Jun";
             "Jul"; "Aug"; "Sep"; "Oct"; "Nov"; "Dec"].

(** [sort_month]:
    [month_display_order.index(x) if x in month_display_order else -1] *)
Definition sort_month (x : pyval) : Z :=
  match index_of x month_display_order with
  | Some i => Z.of_nat i
  | None => -1
  end.

(** [min(l)] *)
Fixpoint min_from (m : pyval) (l : list pyval) : result pyval :=
  match l with
  | [] => Ok m
  | x :: rest =>
      lt <- py_lt x m ;;
      min_from (if lt then x else m) rest
  end.

Definition py_min (l : list pyval) : result pyval :=
  match l with
  | [] => Raise ValueError
  | x :: rest => min_from x rest
  end.

(** [v - 1] *)
Definition minus_one (v : pyval) : result pyval :=
  match v with
  | PyInt z => Ok (PyInt (z - 1))
  | PyBool b => Ok (PyInt ((if b then 1 else 0) - 1))
  | PyFloat f => Ok (PyFloat (f_sub f (FFin 1)))
  | _ => Raise TypeError
  end.

(** [df[(df['year'] == year) & (df['month_name'] == month)]] *)
Definition year_month_rows (df : DataFrame) (year month : pyval)
  : result DataFrame :=
  y <- get_column "year" df ;;
  m <- get_column "month_name" df ;;
  Ok (select_rows (zip_with andb (map (fun v => key_eqb v year) y)
                                 (map (fun v => key_eqb v month) m)) df).

(** "Previous period comparison": the rows the metrics are compared with,
    [None] when there is no earlier period. *)
Definition previous_period_df (df : DataFrame) (years : list pyval)
    (selected_year selected_month : pyval) : result (option DataFrame) :=
  if negb (eq_str selected_month "All Months") then
    month_idx <- list_index selected_month Sales.months ;;
    if (1 <? month_idx)%nat then
      let prev_month := nth (month_idx - 1) Sales.months PyNone in
      previous <- year_month_rows df selected_year prev_month ;;
      Ok (Some previous)
    else
      first_year <- py_min years ;;
      later <- py_lt first_year selected_year ;;
      if later then
        prev_year <- minus_one selected_year ;;
        previous <- year_month_rows df prev_year (PyStr "Dec") ;;
        Ok (Some previous)
      else Ok None
  else
    first_year <- py_min years ;;
    later <- py_lt first_year selected_year ;;
    if later then
      prev_year <- minus_one selected_year ;;
      previous <- filter_eq "year" (fun v => key_eqb v prev_year) df ;;
      Ok (Some previous)
    else Ok None.

(** [((total - prev) / prev * 100) if prev > 0 else 0], the expression of
    [items_change], [sales_change] and [price_change]. *)
Definition items_change (total previous : pyfloat) : pyfloat :=
  if float_ltb (FFin 0) previous
  then f_mul (f_div (f_sub total previous) previous) (FFin 100)
  else FFin 0.

Definition sales_change := items_change.
Definition price_change := items_change.

(** The truth value of a float: zero is false, everything else, NaN
    included, is true. *)
Definition truthy (f : pyfloat) : bool :=
  match f with
  | FFin q => negb (Qeq_bool q 0)
  | _ => true
  end.

(** The third argument of [metric]: the change when it is truthy, [None]
    for the label "N/A". *)
Definition delta (change : pyfloat) : option pyfloat :=
  if truthy change then Some change else None.

End SalesViews.

(** ** Further sample data *)

Module MoreSamples.


(** A 200 response whose records carry no month. *)
Definition undated_sales : response :=
  mkResponse 200
    (Ok (PyDict [ ("data", PyList [
       PyDict [ ("store_name", PyStr " Mall "); ("item_name", PyStr "Tote XL");
                ("total_quantity", PyInt 4) ] ]) ])).

Definition undated_records : list record :=
  [ [ ("store_name", PyStr " Mall "); ("item_name", PyStr "Tote XL");
      ("total_quantity", PyInt 4) ] ].



(** A 200 response whose body is not JSON, and one whose body has no
    data. *)
Definition garbled_sales : response := mkResponse 200 (Raise JSONDecodeError).

Definition dataless_sales : response :=
  mkResponse 200 (Ok (PyDict [("status", PyStr "success")])).

End MoreSamples.

(** * Theorems *)

(** ** Association lists *)

Section DictFacts.
Context {V : Type}.
Implicit Types (d : list (string * V)) (k c : string).

Lemma dict_get_set_same k (v : V) d : dict_get k (dict_set k v d) = Some v.
Proof.
  induction d as [|[k' v'] d IH]; cbn.
  - now rewrite String.eqb_refl.
  - destruct (String.eqb k k') eqn:E; cbn.
    + now rewrite String.eqb_refl.
    + now rewrite E.
Qed.

Lemma dict_get_set_other k c (v : V) d :
  String.eqb c k = false -> dict_get c (dict_set k v d) = dict_get c d.
Proof.
  intros Hck. induction d as [|[k' v'] d IH]; cbn.
  - now rewrite Hck.
  - destruct (String.eqb k k') eqn:E; cbn.
    + apply String.eqb_eq in E. subst k'. now rewrite Hck.
    + now rewrite IH.
Qed.

Lemma dict_has_keys c d : dict_has c d = mem_str c (map fst d).
Proof.
  unfold dict_has. induction d as [|[k' v'] d IH]; cbn; [reflexivity|].
  destruct (String.eqb c k'); [reflexivity|exact IH].
Qed.

Lemma dict_get_tabulate (f : string -> V) c (l : list string) :
  dict_get c (map (fun k => (k, f k)) l)
  = if mem_str c l then Some (f c) else None.
Proof.
  induction l as [|k l IH]; cbn; [reflexivity|].
  destruct (String.eqb c k) eqn:E; cbn.
  - apply String.eqb_eq in E. now subst.
  - exact IH.
Qed.

End DictFacts.

(** ** Columns of a frame built from records *)

Lemma mem_str_app c l m : mem_str c (l ++ m) = mem_str c l || mem_str c m.
Proof. unfold mem_str. apply existsb_app. Qed.

Lemma mem_str_cons c k l :
  mem_str c (k :: l) = String.eqb c k || mem_str c l.
Proof. reflexivity. Qed.

Lemma mem_union_keys c ks : forall seen,
  mem_str c (union_keys seen ks) = mem_str c seen || mem_str c ks.
Proof.
  induction ks as [|k ks IH]; intros seen.
  - cbn. now rewrite orb_false_r.
  - cbn [union_keys]. rewrite IH, mem_str_cons.
    destruct (mem_str k seen) eqn:Hk.
    + destruct (String.eqb c k) eqn:E; cbn [orb]; [|reflexivity].
      apply String.eqb_eq in E. subst. rewrite Hk. reflexivity.
    + rewrite mem_str_app, mem_str_cons. cbn [mem_str existsb].
      rewrite orb_false_r. now rewrite orb_assoc.
Qed.

Lemma mem_fold_keys c (items : list record) : forall seen,
  mem_str c (fold_left (fun seen item => union_keys seen (map fst item))
                       items seen)
  = mem_str c seen || existsb (dict_has c) items.
Proof.
  induction items as [|item items IH]; intros seen.
  - cbn. now rewrite orb_false_r.
  - cbn [fold_left existsb].
    rewrite IH, mem_union_keys, dict_has_keys. now rewrite orb_assoc.
Qed.

Lemma mem_record_columns c (items : list record) :
  mem_str c (record_columns items) = existsb (dict_has c) items.
Proof. unfold record_columns. now rewrite mem_fold_keys. Qed.

Lemma has_column_of_records c items :
  has_column c (of_records items) = existsb (dict_has c) items.
Proof.
  unfold has_column, dict_has, of_records; cbn.
  rewrite (dict_get_tabulate (fun c => map (cell c) items)).
  rewrite mem_record_columns. now destruct (existsb _ _).
Qed.

Lemma get_column_of_records c items :
  get_column c (of_records items)
  = if existsb (dict_has c) items then Ok (map (cell c) items)
    else Raise (KeyError c).
Proof.
  unfold get_column, of_records; cbn.
  rewrite (dict_get_tabulate (fun c => map (cell c) items)).
  rewrite mem_record_columns. now destruct (existsb _ _).
Qed.

Lemma get_set_column_same c vals df :
  get_column c (set_column c vals df) = Ok vals.
Proof. unfold get_column, set_column; cbn. now rewrite dict_get_set_same. Qed.

Lemma get_set_column_other c k vals df :
  String.eqb c k = false ->
  get_column c (set_column k vals df) = get_column c df.
Proof.
  intros H. unfold get_column, set_column; cbn.
  now rewrite dict_get_set_other.
Qed.

Lemma has_set_column_other c k vals df :
  String.eqb c k = false ->
  has_column c (set_column k vals df) = has_column c df.
Proof.
  intros H. unfold has_column, dict_has, set_column; cbn.
  now rewrite dict_get_set_other.
Qed.


Lemma cell_absent c (item : record) :
  dict_has c item = false -> cell c item = NaN.
Proof. unfold dict_has, cell. now destruct (dict_get c item). Qed.

(** ** Computations that report and raise *)


Lemma ui_bind_raise {A B} (m : ui A) (k : A -> ui B) (e : exn) :
  snd m = Raise e -> ui_bind m k = (fst m, Raise e).
Proof. destruct m as [log [a|e']]; cbn; congruence. Qed.

Lemma try_except_returns {A} (body : ui A) (handler : exn -> ui A) :
  (forall e, exists a, snd (handler e) = Ok a) ->
  exists a, snd (try_except body handler) = Ok a.
Proof.
  intros Hh. destruct body as [log [a|e]]; cbn.
  - now exists a.
  - destruct (Hh e) as [a Ha]. destruct (handler e) as [log' r]. cbn in *.
    now exists a.
Qed.


(** ** Product categories *)

Module SalesFacts.
Import Sales.

Lemma categorize_first_match (name : string) :
  categorize_product (PyStr name) = first_match_label name.
Proof.
  unfold categorize_product, first_match_label, category_rules.
  cbn [find rule_matches fst snd existsb].
  repeat rewrite orb_false_r.
  repeat match goal with
         | |- context [if ?b then _ else _] => destruct b; cbn [orb]; try reflexivity
         end.
Qed.

Lemma categorize_in_labels (v : pyval) :
  In (categorize_product v) category_labels.
Proof.
  unfold category_labels.
  destruct v; cbn [categorize_product]; try (cbn; tauto).
  repeat match goal with
         | |- context [if ?b then _ else _] => destruct b
         end; cbn; tauto.
Qed.



(** C1.  [categorize_product] is the ordered rule list of the
    specification: on a string it returns the label of the first rule, from
    the top, one of whose needles occurs in the name, and "Other" when no
    rule matches; on anything that is not a string it returns "Unknown".
    So "Kimono Gilet Jacket" is a "Kimono Jacket". *)
Theorem categorize_product_rule_order :
  (forall v : pyval,
     categorize_product v
     = match v with
       | PyStr name =>
           match find (rule_matches name) category_rules with
           | Some rule => snd rule
           | None => "Other"
           end
       | _ => "Unknown"
       end)
  /\ categorize_product (PyStr "Kimono Gilet Jacket") = "Kimono Jacket"
  /\ map snd category_rules
     = ["Kimono Jacket"; "Gilet Jacket"; "TP/Trucker Jacket"; "Tote Bag";
        "Campaign Hats"; "Shorts"; "Jeans"; "Skirt"; "Bottle Sling"; "Dress"].
Proof.
  split; [|split; reflexivity].
  intros v. destruct v; try reflexivity.
  apply categorize_first_match.
Qed.



(** C5.  When the GET raises or returns a status other than 200, the [try]
    block of [load_data] leaves [json_data] unassigned and reports one
    warning; [load_data] then raises at the read of [json_data] and returns
    no table, empty or otherwise. *)
Theorem load_data_fetch_failure_fatal :
  forall to_datetime (get : result response),
    fetch_failed get ->
    snd (fetch_json get) = Ok None
    /\ (exists text arg, fst (fetch_json get) = [StWarning text arg])
    /\ load_data to_datetime get
       = (fst (fetch_json get), Raise (UnboundLocalError "json_data"))
    /\ forall df, snd (load_data to_datetime get) <> Ok df.
Proof.
  intros to_datetime get Hfail.
  assert (Hnone : snd (fetch_json get) = Ok None
                  /\ exists text arg, fst (fetch_json get) = [StWarning text arg]).
  { destruct get as [r|e]; cbn in *.
    - unfold fetch_json; cbn.
      destruct (status_code r =? 200) eqn:E.
      + apply Z.eqb_eq in E. contradiction.
      + cbn. split; [reflexivity|]. now do 2 eexists.
    - split; [reflexivity|]. now do 2 eexists. }
  destruct Hnone as [Hnone Hlog].
  assert (Hload : load_data to_datetime get
                  = (fst (fetch_json get), Raise (UnboundLocalError "json_data"))).
  { unfold load_data. destruct (fetch_json get) as [log r]. cbn in *.
    subst r. cbn. now rewrite app_nil_r. }
  repeat split; try assumption.
  intros df. rewrite Hload. discriminate.
Qed.

Lemma load_data_fetch_failure_fatal_witness :
  fetch_failed Samples.sales_unavailable
  /\ load_data Samples.iso_date Samples.sales_unavailable
     = ([StWarning "API returned status code {}. Using fallback data."
                   (ArgInt 503)],
        Raise (UnboundLocalError "json_data")).
Proof.
  assert (H : fetch_failed Samples.sales_unavailable) by (cbn; lia).
  split; [exact H|].
  exact (proj1 (proj2 (proj2
           (load_data_fetch_failure_fatal Samples.iso_date
              Samples.sales_unavailable H)))).
Defined.

End SalesFacts.

(** ** The inventory fetcher *)

Module FetchFacts.
Import Inventory.

Section Fetch.
Variable json_loads : string -> option pyval.

Lemma fetch_raises (e : exn) :
  fetch_store_data json_loads (Raise e) = ([StError "Error fetching data: {}" (ArgExn e)], Ok (PyDict [])).
Proof. reflexivity. Qed.

Lemma fetch_http_error r :
  400 <= status_code r < 600 ->
  fetch_store_data json_loads (Ok r)
  = ([StError "Error fetching data: {}" (ArgExn (HTTPError (status_code r)))],
     Ok (PyDict [])).
Proof.
  intros [Hlo Hhi]. unfold fetch_store_data, raise_for_status. cbn.
  apply Z.leb_le in Hlo. apply Z.ltb_lt in Hhi. now rewrite Hlo, Hhi.
Qed.

Lemma fetch_no_http_error r :
  (400 <=? status_code r) && (status_code r <? 600) = false ->
  fetch_store_data json_loads (Ok r) = decode json_loads r.
Proof.
  intros H. unfold fetch_store_data, decode, raise_for_status.
  cbn. rewrite H. cbn.
  destruct (json r) as [data|e]; cbn; [|reflexivity].
  destruct (getitem data "status") as [status|e]; cbn; [|reflexivity].
  destruct (eq_str status "success"); cbn; [|reflexivity].
  destruct (getitem data "data") as [payload|e]; cbn; [|reflexivity].
  destruct payload; cbn; try reflexivity.
  destruct (json_loads s); reflexivity.
Qed.

Lemma http_error_dec r :
  {400 <= status_code r < 600}
  + {(400 <=? status_code r) && (status_code r <? 600) = false}.
Proof.
  destruct ((400 <=? status_code r) && (status_code r <? 600)) eqn:E.
  - left. apply andb_true_iff in E. destruct E as [A B].
    apply Z.leb_le in A. apply Z.ltb_lt in B. now split.
  - now right.
Qed.

Lemma decode_failure r :
  fetch_failure json_loads (Ok r) ->
  (400 <=? status_code r) && (status_code r <? 600) = false ->
  reports_empty (decode json_loads r).
Proof.
  intros Hf Hcode. unfold reports_empty, decode.
  inversion Hf; subst.
  - exfalso. destruct H0 as [A B].
    apply Z.leb_le in A. apply Z.ltb_lt in B. rewrite A, B in Hcode.
    discriminate.
  - rewrite H0. cbn. split; [reflexivity|]. now do 2 eexists.
  - rewrite H0. cbn. rewrite H1. cbn. split; [reflexivity|]. now do 2 eexists.
  - rewrite H0. cbn. rewrite H1. cbn. rewrite H2. cbn.
    split; [reflexivity|]. now do 2 eexists.
  - rewrite H0. cbn. rewrite H1. cbn. rewrite H2. cbn. rewrite H3. cbn.
    split; [reflexivity|]. now do 2 eexists.
  - rewrite H0. cbn. rewrite H1. cbn. rewrite H2. cbn. rewrite H3. cbn.
    rewrite H4. cbn. split; [reflexivity|]. now do 2 eexists.
Qed.

Lemma fetch_failure_empty get :
  fetch_failure json_loads get -> reports_empty (fetch_store_data json_loads get).
Proof.
  intros Hf. destruct get as [r|e].
  - destruct (http_error_dec r) as [H|H].
    + rewrite (fetch_http_error r H). split; [reflexivity|]. now do 2 eexists.
    + rewrite (fetch_no_http_error r H). now apply decode_failure.
  - rewrite fetch_raises. split; [reflexivity|]. now do 2 eexists.
Qed.

Lemma fetch_returns get : exists v, snd (fetch_store_data json_loads get) = Ok v.
Proof.
  unfold fetch_store_data. apply try_except_returns.
  intros e. now exists (PyDict []).
Qed.

Lemma fetch_success r payload :
  (400 <=? status_code r) && (status_code r <? 600) = false ->
  success_envelope r payload ->
  fetch_store_data json_loads (Ok r)
  = match payload with
    | PyStr text =>
        match json_loads text with
        | Some v => ([], Ok v)
        | None =>
            ([StError "Error parsing JSON data: {}" (ArgExn JSONDecodeError)],
             Ok (PyDict []))
        end
    | _ => ([], Ok payload)
    end.
Proof.
  intros Hcode (data & status & Hj & Hs & He & Hd).
  rewrite (fetch_no_http_error r Hcode). unfold decode.
  rewrite Hj. cbn. rewrite Hs. cbn. rewrite He. cbn. rewrite Hd. cbn.
  destruct payload; try reflexivity.
  destruct (json_loads s); reflexivity.
Qed.

End Fetch.

(** C4, counterexample.  A final response with status 300 is not 2xx, yet
    [raise_for_status] lets it pass: with a success envelope in the body the
    fetcher returns the data, not an empty mapping. *)
Lemma fetch_store_data_non_2xx_counterexample :
  ~ (200 <= status_code Samples.multiple_choices < 300)
  /\ fetch_store_data Samples.loads_empty (Ok Samples.multiple_choices)
     = ([], Ok (PyDict [ ("Store A", PyList [ PyDict [("count", PyInt 1)] ]) ]))
  /\ ~ (forall json_loads r,
          ~ (200 <= status_code r < 300) ->
          snd (fetch_store_data json_loads (Ok r)) = Ok (PyDict [])).
Proof.
  split; [cbn; lia|]. split; [reflexivity|].
  intros H.
  specialize (H Samples.loads_empty Samples.multiple_choices).
  cbn in H. assert (E : ~ (200 <= 300 < 300)) by lia.
  specialize (H E). discriminate.
Qed.

(** C4, amended.  [fetch_store_data] never raises.  On a network error, a
    4xx or 5xx status, a body that is not JSON, an envelope without a
    "success" status or without data, or a string payload that fails the
    second parse, it reports one error and returns the empty mapping.  On a
    success envelope under any other status it returns the data field
    unchanged when that is structured, and its decoded value when it is a
    string that decodes. *)
Theorem fetch_store_data_fails_closed :
  forall (json_loads : string -> option pyval) (get : result response),
    (exists v, snd (fetch_store_data json_loads get) = Ok v)
    /\ (fetch_failure json_loads get ->
        snd (fetch_store_data json_loads get) = Ok (PyDict [])
        /\ exists text arg,
             fst (fetch_store_data json_loads get) = [StError text arg])
    /\ (forall r payload,
          get = Ok r -> ~ (400 <= status_code r < 600) ->
          success_envelope r payload -> is_str payload = false ->
          fetch_store_data json_loads get = ([], Ok payload))
    /\ (forall r text v,
          get = Ok r -> ~ (400 <= status_code r < 600) ->
          success_envelope r (PyStr text) -> json_loads text = Some v ->
          fetch_store_data json_loads get = ([], Ok v)).
Proof.
  intros json_loads get. split; [apply fetch_returns|].
  split; [apply fetch_failure_empty|].
  split.
  - intros r payload -> Hcode Henv Hstr.
    destruct (http_error_dec r) as [H|H]; [contradiction|].
    rewrite (fetch_success json_loads r payload H Henv).
    destruct payload; try reflexivity. discriminate.
  - intros r text v -> Hcode Henv Hv.
    destruct (http_error_dec r) as [H|H]; [contradiction|].
    rewrite (fetch_success json_loads r (PyStr text) H Henv).
    now rewrite Hv.
Qed.

Lemma fetch_store_data_fails_closed_witness :
  fetch_failure Samples.loads_empty (Ok Samples.not_found)
  /\ snd (fetch_store_data Samples.loads_empty (Ok Samples.not_found))
     = Ok (PyDict [])
  /\ fetch_store_data Samples.loads_empty (Ok Samples.multiple_choices)
     = ([], Ok (PyDict [ ("Store A", PyList [ PyDict [("count", PyInt 1)] ]) ])).
Proof.
  assert (F : fetch_failure Samples.loads_empty (Ok Samples.not_found)).
  { apply http_error. cbn. lia. }
  split; [exact F|]. split.
  - exact (proj1 (proj1 (proj2
             (fetch_store_data_fails_closed Samples.loads_empty
                (Ok Samples.not_found))) F)).
  - apply (proj1 (proj2 (proj2
             (fetch_store_data_fails_closed Samples.loads_empty
                (Ok Samples.multiple_choices))))
             Samples.multiple_choices).
    + reflexivity.
    + cbn. lia.
    + do 2 eexists. repeat split; reflexivity.
    + reflexivity.
Defined.

End FetchFacts.

(** ** The inventory normalizer *)

Module InventoryFacts.
Import Inventory.

Lemma cell_set_other c k v (r : record) :
  String.eqb c k = false -> cell c (dict_set k v r) = cell c r.
Proof. intros H. unfold cell. now rewrite dict_get_set_other. Qed.

Lemma dict_has_set_other c k v (r : record) :
  String.eqb c k = false -> dict_has c (dict_set k v r) = dict_has c r.
Proof. intros H. unfold dict_has. now rewrite dict_get_set_other. Qed.

Lemma all_items_cons (entry : string * list record) (p : payload) :
  all_items (entry :: p)
  = map (fun item => dict_set "store_name" (PyStr (strip (fst entry))) item)
        (snd entry) ++ all_items p.
Proof. reflexivity. Qed.

Lemma records_cons (entry : string * list record) (p : payload) :
  records (entry :: p) = snd entry ++ records p.
Proof. reflexivity. Qed.

Lemma all_items_cells c (p : payload) :
  String.eqb c "store_name" = false ->
  map (cell c) (all_items p) = map (cell c) (records p).
Proof.
  intros H. induction p as [|entry p IH]; [reflexivity|].
  rewrite all_items_cons, records_cons, !map_app.
  f_equal; [|exact IH].
  rewrite map_map. apply map_ext. intros r. now apply cell_set_other.
Qed.

Lemma all_items_has c (p : payload) :
  String.eqb c "store_name" = false ->
  existsb (dict_has c) (all_items p) = existsb (dict_has c) (records p).
Proof.
  intros H. induction p as [|entry p IH]; [reflexivity|].
  rewrite all_items_cons, records_cons, !existsb_app.
  f_equal; [|exact IH].
  induction (snd entry) as [|r items IHi]; cbn; [reflexivity|].
  now rewrite IHi, dict_has_set_other.
Qed.

Lemma all_items_length (p : payload) :
  List.length (all_items p) = List.length (records p).
Proof.
  induction p as [|entry p IH]; [reflexivity|].
  rewrite all_items_cons, records_cons, !length_app, length_map.
  f_equal. exact IH.
Qed.

Lemma nrows_default k df : nrows (default_unknown k df) = nrows df.
Proof. unfold default_unknown. now destruct (has_column k df). Qed.

Lemma get_default_other c k df :
  String.eqb c k = false ->
  get_column c (default_unknown k df) = get_column c df.
Proof.
  intros H. unfold default_unknown, set_scalar.
  destruct (has_column k df); cbn; [reflexivity|].
  now apply get_set_column_other.
Qed.

Lemma has_default_other c k df :
  String.eqb c k = false ->
  has_column c (default_unknown k df) = has_column c df.
Proof.
  intros H. unfold default_unknown, set_scalar.
  destruct (has_column k df); cbn; [reflexivity|].
  now apply has_set_column_other.
Qed.

Lemma get_default_same c df :
  get_column c (default_unknown c df)
  = if has_column c df then get_column c df
    else Ok (repeat (PyStr "Unknown") (nrows df)).
Proof.
  unfold default_unknown, set_scalar.
  destruct (has_column c df); cbn; [reflexivity|].
  apply get_set_column_same.
Qed.

(** The frame after the four defaults. *)
Lemma defaults_count df :
  get_column "count"
    (default_unknown "size" (default_unknown "gender"
       (default_unknown "collection" (default_unknown "category" df))))
  = get_column "count" df.
Proof. now rewrite !get_default_other by reflexivity. Qed.

Lemma defaults_categorical c df :
  In c categorical ->
  get_column c
    (default_unknown "size" (default_unknown "gender"
       (default_unknown "collection" (default_unknown "category" df))))
  = if has_column c df then get_column c df
    else Ok (repeat (PyStr "Unknown") (nrows df)).
Proof.
  unfold categorical. cbn [In].
  intros [<-|[<-|[<-|[<-|[]]]]].
  - rewrite !get_default_other by reflexivity. apply get_default_same.
  - rewrite !get_default_other by reflexivity. rewrite get_default_same.
    rewrite has_default_other, get_default_other, nrows_default by reflexivity.
    reflexivity.
  - rewrite !get_default_other by reflexivity. rewrite get_default_same.
    rewrite !has_default_other, !get_default_other, !nrows_default
      by reflexivity.
    reflexivity.
  - rewrite get_default_same.
    rewrite !has_default_other, !get_default_other, !nrows_default
      by reflexivity.
    reflexivity.
Qed.

Lemma categorical_not_count c :
  In c categorical ->
  String.eqb c "count" = false /\ String.eqb c "store_name" = false.
Proof.
  unfold categorical. cbn [In].
  intros [<-|[<-|[<-|[<-|[]]]]]; split; reflexivity.
Qed.

Lemma map_result_nth {A B} (f : A -> result B) (l : list A) :
  forall out, map_result f l = Ok out ->
  List.length out = List.length l
  /\ forall i x, nth_error l i = Some x ->
       exists y, nth_error out i = Some y /\ f x = Ok y.
Proof.
  induction l as [|a l IH]; cbn; intros out H.
  - injection H as <-. split; [reflexivity|].
    intros [|i] x Hx; discriminate.
  - destruct (f a) as [b|e] eqn:Ea; cbn in H; [|discriminate].
    destruct (map_result f l) as [ys|e]; cbn in H; [|discriminate].
    injection H as <-. destruct (IH ys eq_refl) as [Hlen Hnth].
    split; [cbn; now rewrite Hlen|].
    intros [|i] x Hx; cbn in *.
    + injection Hx as <-. now exists b.
    + now apply Hnth.
Qed.

Section Normalizer.
Variable str_to_num : string -> option num.

(** What [process_store_data] does, in one equation. *)
Lemma process_store_data_eq (p : payload) :
  process_store_data str_to_num p
  = if existsb (dict_has "count") (records p) then
      counts <- map_result (coerce_count str_to_num)
                           (map (cell "count") (records p)) ;;
      Ok (set_column "count" counts
            (default_unknown "size" (default_unknown "gender"
               (default_unknown "collection" (default_unknown "category"
                  (of_records (all_items p)))))))
    else Raise (KeyError "count").
Proof.
  unfold process_store_data.
  rewrite defaults_count, get_column_of_records.
  rewrite all_items_has, all_items_cells by reflexivity.
  destruct (existsb (dict_has "count") (records p)); reflexivity.
Qed.

Lemma process_count_column (p : payload) df :
  process_store_data str_to_num p = Ok df ->
  existsb (dict_has "count") (records p) = true
  /\ exists counts,
       map_result (coerce_count str_to_num) (map (cell "count") (records p))
       = Ok counts
       /\ get_column "count" df = Ok counts.
Proof.
  rewrite process_store_data_eq.
  destruct (existsb (dict_has "count") (records p)); [|discriminate].
  destruct (map_result _ _) as [counts|e]; cbn; [|discriminate].
  intros H. injection H as <-. split; [reflexivity|].
  exists counts. split; [reflexivity|apply get_set_column_same].
Qed.

Lemma process_categorical_column (p : payload) df c :
  In c categorical ->
  process_store_data str_to_num p = Ok df ->
  get_column c df
  = Ok (if existsb (dict_has c) (records p)
        then map (cell c) (records p)
        else repeat (PyStr "Unknown") (List.length (records p))).
Proof.
  intros Hc. destruct (categorical_not_count c Hc) as [Hcount Hstore].
  rewrite process_store_data_eq.
  destruct (existsb (dict_has "count") (records p)); [|discriminate].
  destruct (map_result _ _) as [counts|e]; cbn; [|discriminate].
  intros H. injection H as <-.
  rewrite get_set_column_other by exact Hcount.
  rewrite defaults_categorical by exact Hc.
  rewrite has_column_of_records, get_column_of_records.
  rewrite all_items_has, all_items_cells by exact Hstore.
  cbn [nrows of_records]. rewrite all_items_length.
  now destruct (existsb (dict_has c) (records p)).
Qed.

End Normalizer.



(** ** Grouping *)

Lemma total_cons g groups : total (g :: groups) = snd g + total groups.
Proof. reflexivity. Qed.

Lemma total_add_to_group k v groups :
  total (add_to_group k v groups) = total groups + v.
Proof.
  induction groups as [|[k' s] groups IH]; cbn [add_to_group].
  - cbn. lia.
  - destruct (key_eqb k k'); rewrite !total_cons; cbn [snd]; [lia|].
    rewrite IH. lia.
Qed.

Lemma total_group_sums keys : forall measure groups,
  total (group_sums keys measure groups)
  = total groups + sum_cells (keep (map notna keys) measure).
Proof.
  induction keys as [|k keys IH]; intros [|v measure] groups.
  - cbn [group_sums map keep sum_cells fold_right]. lia.
  - cbn [group_sums map keep sum_cells fold_right]. lia.
  - cbn [group_sums map keep sum_cells fold_right]. lia.
  - cbn [group_sums map keep]. rewrite IH.
    destruct (notna k); [|reflexivity].
    rewrite total_add_to_group. cbn [sum_cells fold_right].
    fold (sum_cells (keep (map notna keys) measure)). lia.
Qed.

Lemma total_insert_desc g l : total (insert_desc g l) = snd g + total l.
Proof.
  induction l as [|h l IH]; cbn [insert_desc]; [reflexivity|].
  destruct (snd h <? snd g); rewrite !total_cons; [reflexivity|].
  rewrite IH. lia.
Qed.

Lemma total_sort_desc l : total (sort_desc l) = total l.
Proof.
  induction l as [|g l IH]; [reflexivity|].
  unfold sort_desc. cbn [fold_right]. fold (sort_desc l).
  now rewrite total_insert_desc, IH.
Qed.

Lemma keep_all {A} (keys : list pyval) : forall (l : list A),
  forallb notna keys = true -> List.length keys = List.length l ->
  keep (map notna keys) l = l.
Proof.
  induction keys as [|k keys IH]; intros [|x l]; cbn; try discriminate;
    try reflexivity.
  intros H Hlen. apply andb_true_iff in H. destruct H as [Hk Hks].
  rewrite Hk. f_equal. apply IH; [exact Hks|lia].
Qed.

(** ** Alignment of the columns *)

Lemma aligned_set_column c vals df :
  aligned df -> List.length vals = nrows df -> aligned (set_column c vals df).
Proof.
  unfold aligned, set_column. cbn. intros H Hlen.
  induction (cols df) as [|[k v] l IH]; cbn.
  - constructor; [exact Hlen|constructor].
  - inversion H; subst. destruct (String.eqb c k).
    + constructor; assumption.
    + constructor; [assumption|now apply IH].
Qed.

Lemma aligned_of_records items : aligned (of_records items).
Proof.
  unfold aligned, of_records. cbn. apply Forall_map, Forall_forall.
  intros c _. cbn. apply length_map.
Qed.

Lemma aligned_default k df : aligned df -> aligned (default_unknown k df).
Proof.
  intros H. unfold default_unknown, set_scalar.
  destruct (has_column k df); cbn; [exact H|].
  apply aligned_set_column; [exact H|apply repeat_length].
Qed.

Lemma length_keep {A B} (mask : list bool) : forall (l : list A) (m : list B),
  List.length l = List.length m ->
  List.length (keep mask l) = List.length (keep mask m).
Proof.
  induction mask as [|b mask IH]; intros [|x l] [|y m]; cbn; try discriminate;
    try reflexivity.
  intros H. destruct b; cbn; [f_equal|]; apply IH; lia.
Qed.

Lemma aligned_select_rows mask df : aligned df -> aligned (select_rows mask df).
Proof.
  unfold aligned, select_rows. cbn. intros H.
  apply Forall_map. eapply Forall_impl; [|exact H].
  intros [c col] Hc. cbn in *. apply length_keep.
  now rewrite repeat_length.
Qed.

Lemma aligned_column c df col :
  aligned df -> get_column c df = Ok col -> List.length col = nrows df.
Proof.
  unfold aligned, get_column. intros H.
  induction (cols df) as [|[k v] l IH]; cbn; [discriminate|].
  inversion H; subst. destruct (String.eqb c k).
  - intros E. injection E as <-. assumption.
  - now apply IH.
Qed.

Lemma process_aligned str_to_num (p : payload) df :
  process_store_data str_to_num p = Ok df -> aligned df.
Proof.
  rewrite process_store_data_eq.
  destruct (existsb (dict_has "count") (records p)); [|discriminate].
  destruct (map_result _ _) as [counts|e] eqn:E; cbn; [|discriminate].
  intros H. injection H as <-.
  apply aligned_set_column.
  - repeat apply aligned_default. apply aligned_of_records.
  - rewrite !nrows_default. cbn.
    destruct (map_result_nth _ _ _ E) as [Hlen _].
    now rewrite Hlen, length_map, all_items_length.
Qed.

(** When the normalizer returns a table: some record has a count, and no
    count reads as an infinity. *)
Lemma map_coerce_count str_to_num (l : list record) :
  forallb (fun r =>
             match to_numeric str_to_num (cell "count" r) with
             | NFloat (FInf _) => false
             | _ => true
             end) l = true ->
  exists counts,
    map_result (coerce_count str_to_num) (map (cell "count") l) = Ok counts.
Proof.
  induction l as [|r l IH]; cbn [forallb map map_result].
  - intros _. now eexists.
  - intros H. apply andb_true_iff in H. destruct H as [Hr Hl].
    destruct (IH Hl) as [counts Hc]. rewrite Hc.
    unfold coerce_count at 1.
    destruct (to_numeric str_to_num (cell "count" r)) as [z|[q|b|]];
      try discriminate; cbn; now eexists.
Qed.

Lemma process_store_data_returns str_to_num (p : payload) :
  existsb (dict_has "count") (records p) = true ->
  finite_counts str_to_num p = true ->
  exists df, process_store_data str_to_num p = Ok df.
Proof.
  intros Hc Hf. rewrite process_store_data_eq, Hc.
  destruct (map_coerce_count str_to_num (records p) Hf) as [counts E].
  rewrite E. cbn. now eexists.
Qed.

(** The end-to-end scenario of the specification: two rows, category
    "Tops" in both, and 8 items of category "Tops". *)
Example two_stores_scenario :
  process_store_data Samples.int_literal Samples.two_stores
  = Ok Samples.two_stores_table
  /\ nrows Samples.two_stores_table = 2%nat
  /\ get_column "category" Samples.two_stores_table
     = Ok [PyStr "Tops"; PyStr "Tops"]
  /\ get_column "store_name" Samples.two_stores_table
     = Ok [PyStr "Store A"; PyStr "Store B"]
  /\ inventory_by "category" Samples.two_stores_table
     = Ok [(PyStr "Tops", 8)].
Proof. repeat split; reflexivity. Qed.

(** ** Properties of the normalized table *)




(** C3.  In every table that [process_store_data] returns, a categorical
    column has one cell per item record.  If no record has the column,
    every cell is "Unknown".  If some record has it, the cell of a record
    that lacks it is NaN, a null, and not "Unknown". *)
Theorem categorical_column_default :
  forall str_to_num (p : payload) df c,
    In c categorical ->
    process_store_data str_to_num p = Ok df ->
    exists col,
      get_column c df = Ok col
      /\ List.length col = List.length (records p)
      /\ ((forall r, In r (records p) -> dict_has c r = false) ->
          Forall (fun v => v = PyStr "Unknown") col)
      /\ ((exists r, In r (records p) /\ dict_has c r = true) ->
          forall i r,
            nth_error (records p) i = Some r ->
            (dict_has c r = false ->
             nth_error col i = Some NaN /\ isna NaN = true
             /\ NaN <> PyStr "Unknown")
            /\ (forall v, dict_get c r = Some v -> nth_error col i = Some v)).
Proof.
  intros str_to_num p df c Hc H.
  rewrite (process_categorical_column _ _ _ _ Hc H).
  eexists. split; [reflexivity|].
  destruct (existsb (dict_has c) (records p)) eqn:E.
  - split; [apply length_map|]. split.
    + intros Hall. apply existsb_exists in E. destruct E as (r & Hin & Hr).
      rewrite (Hall r Hin) in Hr. discriminate.
    + intros _ i r Hr. split.
      * intros Habs. rewrite nth_error_map, Hr. cbn.
        rewrite (cell_absent _ _ Habs). repeat split. discriminate.
      * intros v Hv. rewrite nth_error_map, Hr. cbn. unfold cell.
        now rewrite Hv.
  - split; [apply repeat_length|]. split.
    + intros _. apply Forall_forall. intros v Hv.
      now apply repeat_spec in Hv.
    + intros (r & Hin & Hr). exfalso.
      assert (existsb (dict_has c) (records p) = true)
        by (apply existsb_exists; now exists r).
      congruence.
Qed.

Lemma categorical_column_default_witness :
  In "category" categorical
  /\ process_store_data Samples.int_literal Samples.partial_store
     = Ok Samples.partial_table
  /\ exists col,
       get_column "category" Samples.partial_table = Ok col
       /\ List.length col = 3%nat.
Proof.
  assert (Hc : In "category" categorical) by (cbn; auto).
  split; [exact Hc|]. split; [reflexivity|].
  destruct (categorical_column_default Samples.int_literal
              Samples.partial_store Samples.partial_table "category"
              Hc eq_refl) as (col & Hcol & Hlen & _).
  exists col. split; [exact Hcol|exact Hlen].
Defined.

(** C8, the failing case.  When no item record carries a count, and so also
    when there is no item record at all, [process_store_data] returns no
    table: the read of the count column raises [KeyError]. *)
Theorem process_store_data_without_count :
  forall str_to_num (p : payload),
    existsb (dict_has "count") (records p) = false ->
    process_store_data str_to_num p = Raise (KeyError "count").
Proof.
  intros str_to_num p H. now rewrite process_store_data_eq, H.
Qed.

Lemma process_store_data_without_count_witness :
  existsb (dict_has "count") (records Samples.no_count) = false
  /\ process_store_data Samples.int_literal Samples.no_count
     = Raise (KeyError "count").
Proof.
  split; [reflexivity|].
  apply (process_store_data_without_count Samples.int_literal
           Samples.no_count).
  reflexivity.
Defined.

(** C7, counterexample.  In the table of [partial_store] two rows have no
    category: the counts add up to 8, the per-category sums to 5. *)
Lemma groupby_conservation_counterexample :
  process_store_data Samples.int_literal Samples.partial_store
  = Ok Samples.partial_table
  /\ total_items Samples.partial_table = Ok 8
  /\ inventory_by "category" Samples.partial_table = Ok [(PyStr "Tops", 5)]
  /\ ~ (forall str_to_num p df c groups t,
          process_store_data str_to_num p = Ok df ->
          inventory_by c df = Ok groups ->
          total_items df = Ok t ->
          total groups = t).
Proof.
  split; [reflexivity|]. split; [reflexivity|]. split; [reflexivity|].
  intros H.
  specialize (H Samples.int_literal Samples.partial_store
                Samples.partial_table "category" [(PyStr "Tops", 5)] 8
                eq_refl eq_refl eq_refl).
  discriminate.
Qed.

(** C7, amended.  The tables of the normalizer, and their filtered subsets,
    have columns of one length.  In such a table, grouping on a column and
    summing count gives per-group sums that add up to the sum of count over
    the rows whose grouping value is not null; when the grouping column has
    no null this is the sum of count over the whole table. *)
Theorem groupby_sum_conservation :
  (forall str_to_num p df,
     process_store_data str_to_num p = Ok df -> aligned df)
  /\ (forall mask df, aligned df -> aligned (select_rows mask df))
  /\ (forall df c keys counts,
        aligned df ->
        get_column c df = Ok keys ->
        get_column "count" df = Ok counts ->
        exists groups,
          inventory_by c df = Ok groups
          /\ total groups = sum_cells (keep (map notna keys) counts)
          /\ (forallb notna keys = true ->
              total_items df = Ok (total groups))).
Proof.
  split; [exact process_aligned|]. split; [exact aligned_select_rows|].
  intros df c keys counts Hal Hk Hc.
  unfold inventory_by, groupby_sum, total_items. rewrite Hk, Hc. cbn.
  eexists. split; [reflexivity|].
  rewrite total_sort_desc, total_group_sums. cbn [total fold_right].
  split; [lia|].
  intros Hall. rewrite keep_all; [reflexivity|exact Hall|].
  rewrite (aligned_column _ _ _ Hal Hk).
  now rewrite (aligned_column _ _ _ Hal Hc).
Qed.

Lemma groupby_sum_conservation_witness :
  aligned Samples.two_stores_table
  /\ exists groups,
       inventory_by "category" Samples.two_stores_table = Ok groups
       /\ total_items Samples.two_stores_table = Ok (total groups).
Proof.
  assert (Hal : aligned Samples.two_stores_table).
  { exact (proj1 groupby_sum_conservation Samples.int_literal
             Samples.two_stores Samples.two_stores_table eq_refl). }
  split; [exact Hal|].
  destruct (proj2 (proj2 groupby_sum_conservation)
              Samples.two_stores_table "category"
              [PyStr "Tops"; PyStr "Tops"] [PyInt 5; PyInt 3]
              Hal eq_refl eq_refl) as (groups & Hg & _ & Hall).
  exists groups. split; [exact Hg|]. apply Hall. reflexivity.
Defined.

End InventoryFacts.

(** ** Facet selectors and filters *)

Module FacetFacts.





(** A column of a filtered frame. *)
Lemma get_column_select_rows c mask df :
  get_column c (select_rows mask df)
  = (col <- get_column c df ;; Ok (keep mask col)).
Proof.
  unfold get_column, select_rows. cbn.
  induction (cols df) as [|[k v] l IH]; cbn; [reflexivity|].
  destruct (String.eqb c k); cbn; [reflexivity|exact IH].
Qed.

Lemma forallb_keep {A} (P : A -> bool) mask : forall l,
  forallb P l = true -> forallb P (keep mask l) = true.
Proof.
  induction mask as [|b mask IH]; intros [|x l]; cbn; try reflexivity.
  intros H. apply andb_true_iff in H. destruct H as [Hx Hl].
  destruct b; cbn; [rewrite Hx|]; now apply IH.
Qed.

Lemma forallb_keep_self {A} (P : A -> bool) (l : list A) :
  forallb P (keep (map P l) l) = true.
Proof.
  induction l as [|x l IH]; cbn; [reflexivity|].
  destruct (P x) eqn:E; cbn; [rewrite E|]; exact IH.
Qed.

Lemma filter_eq_column c P df f :
  filter_eq c P df = Ok f ->
  exists col, get_column c f = Ok col /\ forallb P col = true.
Proof.
  unfold filter_eq. destruct (get_column c df) as [col|e] eqn:E; cbn;
    [|discriminate].
  intros H. injection H as <-.
  rewrite get_column_select_rows, E. cbn.
  eexists. split; [reflexivity|apply forallb_keep_self].
Qed.

Lemma facet_step_keeps c P wildcard k selected df f col :
  get_column c df = Ok col -> forallb P col = true ->
  facet_step wildcard k selected df = Ok f ->
  exists col', get_column c f = Ok col' /\ forallb P col' = true.
Proof.
  intros Hc HP. unfold facet_step, filter_eq.
  destruct (negb (eq_str selected wildcard)).
  - destruct (get_column k df) as [kc|e]; cbn; [|discriminate].
    intros H. injection H as <-.
    rewrite get_column_select_rows, Hc. cbn.
    eexists. split; [reflexivity|now apply forallb_keep].
  - intros H. injection H as <-. now exists col.
Qed.




End FacetFacts.

(** ** Month-over-month growth *)

Module GrowthFacts.
Import Sales.

Lemma growth_series_eq r1 r2 rest :
  let rows := r1 :: r2 :: rest in
  growth_series rows
  = Ok (keep (growth_mask NaN rows)
             (zip_with growth_rate (map total_cell rows)
                (shift1 (map total_cell rows)))).
Proof.
  intros rows. unfold growth_series, growth_chart.
  change (1 <? nrows (monthly_quantity rows))%nat with true.
  cbv iota.
  unfold monthly_quantity, get_column, set_column.
  cbn [cols nrows dict_get dict_set String.eqb Ascii.eqb Bool.eqb bind].
  unfold dropna, select_rows, complete_rows.
  cbn [cols nrows dict_get String.eqb Ascii.eqb Bool.eqb map fold_right
       fst snd].
  reflexivity.
Qed.

Lemma growth_rate_cells (q : Q) (r : monthly_row) :
  growth_rate (total_cell r) (PyFloat (FFin q)) = PyFloat (rate q (snd r)).
Proof. reflexivity. Qed.

Lemma notna_float (f : pyfloat) : notna (PyFloat f) = kept f.
Proof. now destruct f. Qed.

(** The rows kept after a month whose total is known. *)
Lemma keep_growth_from (rows : list monthly_row) : forall q : Q,
  keep (growth_mask (PyFloat (FFin q)) rows)
       (zip_with growth_rate (map total_cell rows)
          (shift_from (PyFloat (FFin q)) (map total_cell rows)))
  = map PyFloat (filter kept (rates_from q (map snd rows))).
Proof.
  induction rows as [|r rows IH]; intros q; [reflexivity|].
  unfold growth_mask.
  cbn [map zip_with shift_from repeat List.length keep rates_from filter].
  change (notna (PyStr (fst (fst r)))) with true.
  change (notna (total_cell r)) with true.
  change (notna (PyDate (snd (fst r)))) with true.
  change (notna (PyFloat (FFin q))) with true.
  rewrite growth_rate_cells, notna_float.
  cbn [andb]. rewrite andb_true_r.
  destruct (kept (rate q (snd r))); cbn [map]; [f_equal|];
    apply (IH (snd r)).
Qed.

(** The first row has no previous month and is dropped. *)
Lemma keep_growth_start (r : monthly_row) (rows : list monthly_row) :
  keep (growth_mask NaN (r :: rows))
       (zip_with growth_rate (map total_cell (r :: rows))
          (shift1 (map total_cell (r :: rows))))
  = map PyFloat (filter kept (rates (map snd (r :: rows)))).
Proof.
  unfold growth_mask, shift1.
  cbn [map zip_with shift_from repeat List.length keep rates].
  change (notna NaN) with false.
  change (notna (PyStr (fst (fst r)))) with true.
  change (notna (total_cell r)) with true.
  change (notna (PyDate (snd (fst r)))) with true.
  cbn [andb].
  apply (keep_growth_from rows (snd r)).
Qed.

Lemma growth_series_rates (rows : list monthly_row) :
  (2 <= List.length rows)%nat ->
  growth_series rows
  = Ok (map PyFloat (filter kept (rates (map snd rows)))).
Proof.
  destruct rows as [|r1 [|r2 rest]]; cbn [List.length]; try lia.
  intros _. rewrite growth_series_eq. f_equal. apply keep_growth_start.
Qed.

Lemma is_nan_rate (p t : Q) :
  is_nan (rate p t) = Qeq_bool p 0 && Qeq_bool t 0.
Proof.
  destruct p as [pn pd], t as [tn td].
  unfold rate, f_sub, f_add, f_opp, f_div, f_mul, q_sign, Qeq_bool.
  destruct pn, tn; reflexivity.
Qed.

Lemma rate_finite (p t : Q) :
  Qeq_bool p 0 = false -> rate p t = FFin ((t - p) / p * 100).
Proof.
  destruct p as [pn pd].
  unfold rate, f_sub, f_add, f_opp, f_div, f_mul, q_sign, Qeq_bool.
  destruct pn; cbn; [discriminate| |]; reflexivity.
Qed.

Lemma rates_from_length (l : list Q) : forall q,
  List.length (rates_from q l) = List.length l.
Proof. induction l as [|t l IH]; intros q; cbn; [reflexivity|now rewrite IH]. Qed.

Lemma rates_from_nth (l : list Q) : forall q i p t,
  nth_error (q :: l) i = Some p -> nth_error (q :: l) (S i) = Some t ->
  nth_error (rates_from q l) i = Some (rate p t).
Proof.
  induction l as [|x l IH]; intros q i p t Hp Ht.
  - destruct i; discriminate.
  - destruct i as [|i]; cbn in *.
    + injection Hp as <-. injection Ht as <-. reflexivity.
    + now apply IH.
Qed.

Lemma no_zero_pair_kept (l : list Q) : forall q,
  no_zero_pair_from q l = true ->
  filter kept (rates_from q l) = rates_from q l.
Proof.
  induction l as [|t l IH]; intros q H; [reflexivity|].
  cbn in H. apply andb_true_iff in H. destruct H as [Hq Hl].
  cbn [rates_from filter]. unfold kept at 1. rewrite is_nan_rate, Hq.
  f_equal. now apply IH.
Qed.

(** C6, counterexample.  With totals 0, 0, 5 the rate of the second month
    is 0/0, a NaN, and [dropna] removes its row with the first: the series
    has one entry, not two. *)
Lemma growth_series_length_counterexample :
  growth_series Samples.slow_start = Ok [PyFloat (FInf false)]
  /\ ~ (forall rows series,
          (2 <= List.length rows)%nat ->
          growth_series rows = Ok series ->
          List.length series = (List.length rows - 1)%nat).
Proof.
  split; [reflexivity|].
  intros H.
  specialize (H Samples.slow_start [PyFloat (FInf false)]).
  cbn in H. specialize (H ltac:(lia) eq_refl). discriminate.
Qed.

(** C6, amended.  For a series of n >= 2 monthly totals the chart shows the
    rates [(total - previous) / previous * 100] of the months after the
    first, in order, without those that are NaN; the first month gives no
    entry.  A rate is NaN exactly when the month and the one before it both
    have total zero, and it is the exact quotient when the previous total
    is not zero.  So when no two consecutive totals are both zero the chart
    has exactly n - 1 entries, entry i being the rate of month i + 1 over
    month i.  The series 10, 15, 12 gives 50 and -20. *)
Theorem growth_series_entries :
  forall rows : list monthly_row,
    (2 <= List.length rows)%nat ->
    let totals := map snd rows in
    growth_series rows = Ok (map PyFloat (filter kept (rates totals)))
    /\ List.length (rates totals) = (List.length rows - 1)%nat
    /\ (forall i p t,
          nth_error totals i = Some p -> nth_error totals (S i) = Some t ->
          nth_error (rates totals) i = Some (rate p t)
          /\ kept (rate p t) = negb (Qeq_bool p 0 && Qeq_bool t 0)
          /\ (Qeq_bool p 0 = false ->
              rate p t = FFin ((t - p) / p * 100)))
    /\ (no_zero_pair totals = true ->
        growth_series rows = Ok (map PyFloat (rates totals))
        /\ exists series,
             growth_series rows = Ok series
             /\ List.length series = (List.length rows - 1)%nat).
Proof.
  intros rows Hlen totals.
  pose proof (growth_series_rates rows Hlen) as Hs. fold totals in Hs.
  assert (Hn : List.length (rates totals) = (List.length rows - 1)%nat).
  { subst totals. destruct rows as [|r rows]; [reflexivity|].
    cbn [rates map]. rewrite rates_from_length, length_map.
    cbn [List.length]. now rewrite Nat.sub_succ, Nat.sub_0_r. }
  split; [exact Hs|]. split; [exact Hn|]. split.
  - intros i p t Hp Ht. split; [|split].
    + destruct totals as [|q l]; [destruct i; discriminate|].
      now apply rates_from_nth.
    + unfold kept. now rewrite is_nan_rate.
    + apply rate_finite.
  - intros Hz.
    assert (Hk : filter kept (rates totals) = rates totals).
    { destruct totals as [|q l]; [reflexivity|]. now apply no_zero_pair_kept. }
    rewrite Hk in Hs. split; [exact Hs|].
    eexists. split; [exact Hs|]. now rewrite length_map.
Qed.

Lemma growth_series_entries_witness :
  (2 <= List.length Samples.spring)%nat
  /\ no_zero_pair (map snd Samples.spring) = true
  /\ growth_series Samples.spring
     = Ok [PyFloat (FFin ((15 - 10) / 10 * 100));
           PyFloat (FFin ((12 - 15) / 15 * 100))]
  /\ ((15 - 10) / 10 * 100 == 50)%Q
  /\ ((12 - 15) / 15 * 100 == -20)%Q.
Proof.
  assert (Hlen : (2 <= List.length Samples.spring)%nat) by (cbn; lia).
  split; [exact Hlen|]. split; [reflexivity|]. split.
  - exact (proj1 (proj2 (proj2 (proj2
             (growth_series_entries Samples.spring Hlen))) eq_refl)).
  - split; reflexivity.
Defined.

End GrowthFacts.

(** ** Filters as row masks *)

Module MaskFacts.
Import InventoryViews.

Lemma keep_nil {A} (mask : list bool) : keep mask (@nil A) = [].
Proof. now destruct mask as [|[] mask]. Qed.

Lemma keep_map {A B} (f : A -> B) (mask : list bool) : forall l,
  keep mask (map f l) = map f (keep mask l).
Proof.
  induction mask as [|b mask IH]; intros [|x l]; cbn; try reflexivity.
  destruct b; cbn; now rewrite IH.
Qed.

Lemma keep_keep {A} (m1 : list bool) : forall (m2 : list bool) (l : list A),
  keep (keep m1 m2) (keep m1 l) = keep (zip_with andb m1 m2) l.
Proof.
  induction m1 as [|b m1 IH]; intros m2 l.
  - now destruct m2, l.
  - destruct m2 as [|c m2], l as [|x l]; try destruct b; try destruct c;
      cbn [keep zip_with andb]; rewrite ?keep_nil, ?IH; reflexivity.
Qed.

Lemma keep_all_true {A} (mask : list bool) : forall l : list A,
  forallb (fun b => b) mask = true ->
  (List.length l <= List.length mask)%nat ->
  keep mask l = l.
Proof.
  induction mask as [|b mask IH]; intros [|x l]; cbn; try reflexivity;
    try lia.
  intros H Hlen. apply andb_true_iff in H. destruct H as [-> Hm].
  f_equal. apply IH; [exact Hm|lia].
Qed.

Lemma repeat_tt (l : list unit) : repeat tt (List.length l) = l.
Proof. induction l as [|[] l IH]; cbn; [reflexivity|now rewrite IH]. Qed.

Lemma length_keep_le {A} (mask : list bool) : forall l : list A,
  (List.length (keep mask l) <= List.length l)%nat.
Proof.
  induction mask as [|b mask IH]; intros [|x l]; cbn; try lia.
  specialize (IH l). destruct b; cbn; lia.
Qed.

Lemma nrows_select_rows mask df :
  (nrows (select_rows mask df) <= nrows df)%nat.
Proof.
  unfold select_rows. cbn.
  pose proof (length_keep_le mask (repeat tt (nrows df))) as H.
  now rewrite repeat_length in H.
Qed.

(** Selecting every row changes nothing. *)
Lemma select_rows_all mask df :
  aligned df -> forallb (fun b => b) mask = true ->
  List.length mask = nrows df ->
  select_rows mask df = df.
Proof.
  intros Hal Hm Hlen. destruct df as [n cs]. unfold select_rows, aligned in *.
  cbn in *. f_equal.
  - rewrite keep_all_true; [apply repeat_length|exact Hm|].
    rewrite repeat_length. lia.
  - induction cs as [|[c col] cs IH]; cbn; [reflexivity|].
    inversion Hal; subst. cbn in *. rewrite IH by assumption.
    rewrite keep_all_true; [reflexivity|exact Hm|lia].
Qed.

(** Two selections in a row are one selection by the conjunction. *)
Lemma select_rows_compose m1 m2 df :
  select_rows (keep m1 m2) (select_rows m1 df)
  = select_rows (zip_with andb m1 m2) df.
Proof.
  unfold select_rows. cbn. f_equal.
  - now rewrite repeat_tt, keep_keep.
  - rewrite map_map. apply map_ext. intros [c col]. cbn.
    now rewrite keep_keep.
Qed.

Lemma facet_mask_keep wildcard selected mask col :
  facet_mask wildcard selected (keep mask col)
  = keep mask (facet_mask wildcard selected col).
Proof. unfold facet_mask. now rewrite keep_map. Qed.

Lemma facet_mask_wildcard wildcard col :
  forallb (fun b => b) (facet_mask wildcard (PyStr wildcard) col) = true.
Proof.
  unfold facet_mask. cbn. rewrite String.eqb_refl.
  induction col as [|v col IH]; cbn; [reflexivity|exact IH].
Qed.

(** A facet step is the selection by the mask of the facet. *)
Lemma facet_step_mask wildcard c selected df col :
  aligned df -> get_column c df = Ok col ->
  facet_step wildcard c selected df
  = Ok (select_rows (facet_mask wildcard selected col) df).
Proof.
  intros Hal Hc. unfold facet_step, filter_eq, facet_mask.
  destruct (eq_str selected wildcard) eqn:E; cbn [negb orb].
  - rewrite select_rows_all; [reflexivity|exact Hal| |].
    + clear Hc. induction col as [|v col IH]; cbn; [reflexivity|exact IH].
    + rewrite length_map.
      now apply (InventoryFacts.aligned_column c).
  - rewrite Hc. reflexivity.
Qed.

(** The next facet step after a selection. *)
Lemma facet_step_after mask wildcard c selected df col :
  aligned df -> get_column c df = Ok col ->
  facet_step wildcard c selected (select_rows mask df)
  = Ok (select_rows (zip_with andb mask (facet_mask wildcard selected col))
          df).
Proof.
  intros Hal Hc.
  rewrite (facet_step_mask wildcard c selected (select_rows mask df)
             (keep mask col)).
  - now rewrite facet_mask_keep, select_rows_compose.
  - now apply InventoryFacts.aligned_select_rows.
  - rewrite FacetFacts.get_column_select_rows, Hc. reflexivity.
Qed.

End MaskFacts.

(** ** How the facets combine *)

Module FilterFacts.
Import InventoryViews SalesViews MaskFacts.

(** X1.  On a table whose columns are aligned, the inventory filter keeps
    exactly the rows that pass every facet: the result is the selection by
    the conjunction of the four facet masks, a facet on its wildcard passing
    every row.  The result never has more rows than the table. *)
Theorem inventory_filters_conjunction :
  forall df selected_store selected_category selected_collection
         selected_gender store category collection gender,
    aligned df ->
    get_column "store_name" df = Ok store ->
    get_column "category" df = Ok category ->
    get_column "collection" df = Ok collection ->
    get_column "gender" df = Ok gender ->
    exists filtered,
      Inventory.filtered_df df selected_store selected_category
        selected_collection selected_gender = Ok filtered
      /\ filtered
         = select_rows
             (zip_with andb
                (zip_with andb
                   (zip_with andb
                      (facet_mask "All Stores" selected_store store)
                      (facet_mask "All Categories" selected_category category))
                   (facet_mask "All Collections" selected_collection collection))
                (facet_mask "All Genders" selected_gender gender))
             df
      /\ (nrows filtered <= nrows df)%nat.
Proof.
  intros df s c l g cs cc cl cg Hal Hs Hc Hl Hg.
  eexists. split; [|split; [reflexivity|apply nrows_select_rows]].
  unfold Inventory.filtered_df.
  rewrite (facet_step_mask _ _ _ _ _ Hal Hs). cbn [bind].
  rewrite (facet_step_after _ _ _ _ _ _ Hal Hc). cbn [bind].
  rewrite (facet_step_after _ _ _ _ _ _ Hal Hl). cbn [bind].
  apply (facet_step_after _ _ _ _ _ _ Hal Hg).
Qed.

Lemma inventory_filters_conjunction_witness :
  aligned Samples.partial_table
  /\ exists filtered,
       Inventory.filtered_df Samples.partial_table (PyStr "Store A")
         (PyStr "Tops") (PyStr "All Collections") (PyStr "All Genders")
       = Ok filtered
       /\ filtered = select_rows [true; false; false] Samples.partial_table.
Proof.
  assert (Hal : aligned Samples.partial_table)
    by (repeat constructor).
  split; [exact Hal|].
  destruct (inventory_filters_conjunction Samples.partial_table
              (PyStr "Store A") (PyStr "Tops") (PyStr "All Collections")
              (PyStr "All Genders") _ _ _ _ Hal eq_refl eq_refl eq_refl
              eq_refl) as (filtered & Hf & Heq & _).
  exists filtered. split; [exact Hf|exact Heq].
Defined.

(** X2.  On an aligned sales table the filter keeps exactly the rows whose
    year equals the selected year and that pass the month, store and
    category facets; the year has no wildcard, so with a year that does not
    occur in the table the result is empty whatever the other facets. *)
Theorem sales_filters_conjunction :
  forall df selected_year selected_month selected_store selected_category
         year month_name store_name product_category,
    aligned df ->
    get_column "year" df = Ok year ->
    get_column "month_name" df = Ok month_name ->
    get_column "store_name" df = Ok store_name ->
    get_column "product_category" df = Ok product_category ->
    exists filtered,
      Sales.filtered_df df selected_year selected_month selected_store
        selected_category = Ok filtered
      /\ filtered
         = select_rows
             (zip_with andb
                (zip_with andb
                   (zip_with andb
                      (map (fun v => key_eqb v selected_year) year)
                      (facet_mask "All Months" selected_month month_name))
                   (facet_mask "All Stores" selected_store store_name))
                (facet_mask "All Categories" selected_category
                   product_category))
             df
      /\ (nrows filtered <= nrows df)%nat
      /\ (existsb (fun v => key_eqb v selected_year) year = false ->
          nrows filtered = 0%nat).
Proof.
  intros df y m s c cy cm cs cc Hal Hy Hm Hs Hc.
  eexists. split; [|split; [reflexivity|split; [apply nrows_select_rows|]]].
  - unfold Sales.filtered_df, filter_eq. rewrite Hy. cbn [bind].
    rewrite (facet_step_after _ _ _ _ _ _ Hal Hm). cbn [bind].
    rewrite (facet_step_after _ _ _ _ _ _ Hal Hs). cbn [bind].
    apply (facet_step_after _ _ _ _ _ _ Hal Hc).
  - intros Hnone. unfold select_rows. cbn [nrows]. clear Hy.
    generalize (facet_mask "All Months" m cm) (facet_mask "All Stores" s cs)
      (facet_mask "All Categories" c cc) (nrows df).
    induction cy as [|v cy IH]; intros m1 m2 m3 n; [reflexivity|].
    cbn [existsb] in Hnone. apply orb_false_iff in Hnone.
    destruct Hnone as [Hv Hcy].
    destruct m1 as [|b1 m1]; [reflexivity|].
    destruct m2 as [|b2 m2]; [reflexivity|].
    destruct m3 as [|b3 m3]; [reflexivity|].
    destruct n as [|n]; [reflexivity|].
    cbn [map zip_with repeat keep]. rewrite Hv. cbn [andb].
    apply (IH Hcy).
Qed.

Lemma sales_filters_conjunction_witness :
  aligned Samples.sales_table
  /\ exists filtered,
       Sales.filtered_df Samples.sales_table (PyInt 2024) (PyStr "All Months")
         (PyStr "Mall") (PyStr "All Categories") = Ok filtered
       /\ filtered = select_rows [true; false] Samples.sales_table.
Proof.
  assert (Hal : aligned Samples.sales_table) by (repeat constructor).
  split; [exact Hal|].
  destruct (sales_filters_conjunction Samples.sales_table (PyInt 2024)
              (PyStr "All Months") (PyStr "Mall") (PyStr "All Categories")
              _ _ _ _ Hal eq_refl eq_refl eq_refl eq_refl)
    as (filtered & Hf & Heq & _).
  exists filtered. split; [exact Hf|exact Heq].
Defined.

Lemma facet_step_aligned wildcard c selected df f :
  aligned df -> facet_step wildcard c selected df = Ok f -> aligned f.
Proof.
  intros Hal. unfold facet_step, filter_eq.
  destruct (negb (eq_str selected wildcard)).
  - destruct (get_column c df); cbn; [|discriminate].
    intros H. injection H as <-. now apply InventoryFacts.aligned_select_rows.
  - intros H. now injection H as <-.
Qed.

Lemma filter_eq_all c P df col :
  aligned df -> get_column c df = Ok col -> forallb P col = true ->
  filter_eq c P df = Ok df.
Proof.
  intros Hal Hc HP. unfold filter_eq. rewrite Hc. cbn. f_equal.
  apply select_rows_all; [exact Hal| |].
  - clear Hc. induction col as [|v col IH]; cbn in *; [reflexivity|].
    apply andb_true_iff in HP. destruct HP as [-> HP]. now apply IH.
  - rewrite length_map. now apply (InventoryFacts.aligned_column c).
Qed.

(** X3.  The "Store Performance" tab filters the filtered table once more
    on the selected store; that second filter changes nothing: [store_data]
    is the filtered table itself. *)
Theorem store_data_is_filtered_df :
  forall df selected_year selected_month selected_store selected_category
         filtered,
    aligned df ->
    Sales.filtered_df df selected_year selected_month selected_store
      selected_category = Ok filtered ->
    store_data filtered selected_store = Ok filtered.
Proof.
  intros df y m s c filtered Hal H. unfold store_data.
  destruct (negb (eq_str s "All Stores")) eqn:Es; [|reflexivity].
  unfold Sales.filtered_df in H.
  destruct (filter_eq "year" _ df) as [f1|e] eqn:E1; cbn in H; [|discriminate].
  destruct (facet_step "All Months" _ m f1) as [f2|e] eqn:E2; cbn in H;
    [|discriminate].
  destruct (facet_step "All Stores" _ s f2) as [f3|e] eqn:E3; cbn in H;
    [|discriminate].
  assert (Hal1 : aligned f1).
  { unfold filter_eq in E1. destruct (get_column "year" df); cbn in E1;
      [|discriminate].
    injection E1 as <-. now apply InventoryFacts.aligned_select_rows. }
  pose proof (facet_step_aligned _ _ _ _ _ Hal1 E2) as Hal2.
  pose proof (facet_step_aligned _ _ _ _ _ Hal2 E3) as Hal3.
  pose proof (facet_step_aligned _ _ _ _ _ Hal3 H) as Hal4.
  unfold facet_step in E3. rewrite Es in E3.
  destruct (FacetFacts.filter_eq_column _ _ _ _ E3) as (c3 & Hc3 & HP3).
  destruct (FacetFacts.facet_step_keeps _ _ _ _ _ _ _ _ Hc3 HP3 H)
    as (c4 & Hc4 & HP4).
  exact (filter_eq_all _ _ _ _ Hal4 Hc4 HP4).
Qed.

Lemma store_data_is_filtered_df_witness :
  aligned Samples.sales_table
  /\ Sales.filtered_df Samples.sales_table (PyInt 2025) (PyStr "All Months")
       (PyStr "Mall") (PyStr "All Categories")
     = Ok (select_rows [false; true] Samples.sales_table)
  /\ store_data (select_rows [false; true] Samples.sales_table) (PyStr "Mall")
     = Ok (select_rows [false; true] Samples.sales_table).
Proof.
  assert (Hal : aligned Samples.sales_table) by (repeat constructor).
  split; [exact Hal|]. split; [reflexivity|].
  exact (store_data_is_filtered_df Samples.sales_table (PyInt 2025)
           (PyStr "All Months") (PyStr "Mall") (PyStr "All Categories")
           _ Hal eq_refl).
Defined.

End FilterFacts.

(** ** Grouped sums, their order and the top ten *)

Module GroupFacts.
Import Inventory InventoryViews Plain.

Lemma insert_desc_perm g l : Permutation (g :: l) (insert_desc g l).
Proof.
  induction l as [|h l IH]; cbn [insert_desc]; [reflexivity|].
  destruct (snd h <? snd g); [reflexivity|].
  rewrite perm_swap. now apply perm_skip.
Qed.

Lemma sort_desc_perm l : Permutation l (sort_desc l).
Proof.
  induction l as [|g l IH]; [reflexivity|].
  unfold sort_desc. cbn [fold_right]. fold (sort_desc l).
  rewrite <- insert_desc_perm. now apply perm_skip.
Qed.

Lemma insert_desc_hd g h l :
  snd g <= snd h -> HdRel by_count_desc h l ->
  HdRel by_count_desc h (insert_desc g l).
Proof.
  intros Hg Hl. destruct l as [|x l]; cbn [insert_desc].
  - now constructor.
  - destruct (snd x <? snd g); constructor; [exact Hg|].
    now inversion Hl.
Qed.

Lemma insert_desc_sorted g l :
  Sorted by_count_desc l -> Sorted by_count_desc (insert_desc g l).
Proof.
  induction l as [|h l IH]; intros Hs; cbn [insert_desc].
  - repeat constructor.
  - destruct (snd h <? snd g) eqn:E.
    + apply Z.ltb_lt in E. constructor; [exact Hs|].
      constructor. unfold by_count_desc. lia.
    + apply Z.ltb_ge in E. inversion Hs; subst.
      constructor; [now apply IH|].
      now apply insert_desc_hd.
Qed.

Lemma sort_desc_sorted l : StronglySorted by_count_desc (sort_desc l).
Proof.
  apply Sorted_StronglySorted.
  - intros a b c Hab Hbc. unfold by_count_desc in *. lia.
  - induction l as [|g l IH]; [constructor|].
    unfold sort_desc. cbn [fold_right]. fold (sort_desc l).
    now apply insert_desc_sorted.
Qed.

Lemma strongly_sorted_split {A} (R : A -> A -> Prop) (l1 l2 : list A) :
  StronglySorted R (l1 ++ l2) ->
  forall a b, In a l1 -> In b l2 -> R a b.
Proof.
  induction l1 as [|x l1 IH]; cbn; intros Hs a b Ha Hb; [destruct Ha|].
  inversion Hs; subst. destruct Ha as [<-|Ha].
  - rewrite Forall_forall in H2. apply H2, in_or_app. now right.
  - now apply IH.
Qed.

(** Keys that are strings. *)
Lemma add_to_group_strings (t : string) (z : Z) (f : string -> Z) :
  forall names, NoDup names ->
  add_to_group (PyStr t) z (map (fun s => (PyStr s, f s)) names)
  = if mem_str t names
    then map (fun s => (PyStr s, f s + if String.eqb s t then z else 0)) names
    else map (fun s => (PyStr s, f s)) names ++ [(PyStr t, z)].
Proof.
  induction names as [|n names IH]; intros Hnd; [reflexivity|].
  inversion Hnd as [|? ? Hnot Hnd']; subst.
  cbn [map add_to_group]. rewrite mem_str_cons.
  change (key_eqb (PyStr t) (PyStr n)) with (String.eqb t n).
  destruct (String.eqb t n) eqn:E; cbn [orb].
  - apply String.eqb_eq in E. subst n. rewrite String.eqb_refl.
    f_equal. apply map_ext_in. intros s Hs.
    destruct (String.eqb s t) eqn:Es; [|now rewrite Z.add_0_r].
    apply String.eqb_eq in Es. subst. contradiction.
  - rewrite (String.eqb_sym n t), E, Z.add_0_r. rewrite (IH Hnd').
    now destruct (mem_str t names).
Qed.

Lemma mem_str_In s l : mem_str s l = true <-> In s l.
Proof.
  unfold mem_str. rewrite existsb_exists. split.
  - intros (x & Hx & E). apply String.eqb_eq in E. now subst.
  - intros H. exists s. split; [exact H|apply String.eqb_refl].
Qed.

Lemma mem_str_false s l : mem_str s l = false <-> ~ In s l.
Proof.
  rewrite <- mem_str_In. destruct (mem_str s l); split; intros; congruence.
Qed.

Lemma NoDup_snoc (names : list string) t :
  NoDup names -> ~ In t names -> NoDup (names ++ [t]).
Proof.
  intros Hnd Ht. apply NoDup_app; [exact Hnd|repeat constructor; auto|].
  intros x Hx [<-|[]]. contradiction.
Qed.

Lemma group_sums_strings (ks : list (option string)) :
  forall (vs : list pyval) (names : list string) (f : string -> Z),
    List.length ks = List.length vs ->
    NoDup names ->
    (forall s, ~ In s names -> f s = 0) ->
    group_sums (map key_cell ks) vs (map (fun s => (PyStr s, f s)) names)
    = map (fun s => (PyStr s, f s + sum_where s ks vs))
          (names ++ present_keys names ks).
Proof.
  induction ks as [|k ks IH]; intros [|v vs] names f Hlen Hnd Hf;
    try discriminate.
  - cbn. rewrite app_nil_r. apply map_ext. intros s. now rewrite Z.add_0_r.
  - injection Hlen as Hlen. destruct k as [t|].
    + cbn [map key_cell group_sums present_keys sum_where is_key].
      change (notna (PyStr t)) with true. cbv iota.
      rewrite (add_to_group_strings t (int_of v) f names Hnd).
      destruct (mem_str t names) eqn:Et.
      * rewrite (IH vs names
                   (fun s => f s + if String.eqb s t then int_of v else 0)
                   Hlen Hnd).
        -- apply map_ext. intros s. f_equal. lia.
        -- intros s Hs. rewrite (Hf s Hs).
           destruct (String.eqb s t) eqn:Es; [|reflexivity].
           apply String.eqb_eq in Es. subst.
           apply mem_str_In in Et. contradiction.
      * apply mem_str_false in Et.
        assert (E : map (fun s => (PyStr s, f s)) names ++ [(PyStr t, int_of v)]
                    = map (fun s => (PyStr s,
                                     f s + if String.eqb s t then int_of v else 0))
                          (names ++ [t])).
        { rewrite map_app. cbn [map]. rewrite String.eqb_refl.
          rewrite (Hf t Et). f_equal.
          apply map_ext_in. intros s Hs.
          destruct (String.eqb s t) eqn:Es; [|now rewrite Z.add_0_r].
          apply String.eqb_eq in Es. subst. contradiction. }
        rewrite E.
        rewrite (IH vs (names ++ [t])
                   (fun s => f s + if String.eqb s t then int_of v else 0)
                   Hlen (NoDup_snoc _ _ Hnd Et)).
        -- rewrite <- app_assoc. cbn [app].
           apply map_ext. intros s. f_equal. lia.
        -- intros s Hs. rewrite in_app_iff in Hs. cbn in Hs.
           rewrite Hf by tauto.
           destruct (String.eqb s t) eqn:Es; [|reflexivity].
           apply String.eqb_eq in Es. subst. tauto.
    + cbn [map key_cell group_sums present_keys sum_where is_key].
      change (notna NaN) with false. cbv iota.
      rewrite (IH vs names f Hlen Hnd Hf).
      apply map_ext. intros s. reflexivity.
Qed.

Lemma present_keys_spec (ks : list (option string)) : forall seen,
  NoDup seen ->
  NoDup (seen ++ present_keys seen ks)
  /\ forall s, In s (present_keys seen ks)
               <-> In (Some s) ks /\ ~ In s seen.
Proof.
  induction ks as [|k ks IH]; intros seen Hnd.
  - cbn. rewrite app_nil_r. split; [exact Hnd|]. intros s. tauto.
  - destruct k as [t|]; cbn [present_keys].
    + destruct (mem_str t seen) eqn:Et.
      * apply mem_str_In in Et. destruct (IH seen Hnd) as [H1 H2].
        split; [exact H1|]. intros s. rewrite H2. cbn [In]. split.
        -- tauto.
        -- intros [[E|H] Hs]; [|tauto]. injection E as <-. contradiction.
      * apply mem_str_false in Et.
        destruct (IH (seen ++ [t]) (NoDup_snoc _ _ Hnd Et)) as [H1 H2].
        split.
        -- rewrite <- app_assoc in H1. exact H1.
        -- intros s. cbn [In]. rewrite H2, in_app_iff. cbn [In]. split.
           ++ intros [<-|[H Hs]]; [split; [now left|exact Et]|]. tauto.
           ++ intros [[E|H] Hs].
              ** injection E as <-. now left.
              ** destruct (string_dec t s) as [<-|Hne]; [now left|].
                 right. split; [exact H|]. intros [?|[?|[]]]; tauto.
    + destruct (IH seen Hnd) as [H1 H2]. split; [exact H1|].
      intros s. rewrite H2. cbn [In]. split; [tauto|].
      intros [[E|H] Hs]; [discriminate|tauto].
Qed.

Lemma inventory_by_sorted_aux c df groups :
  inventory_by c df = Ok groups -> StronglySorted by_count_desc groups.
Proof.
  unfold inventory_by.
  destruct (groupby_sum c "count" df) as [sums|e]; cbn; [|discriminate].
  intros H. injection H as <-. apply sort_desc_sorted.
Qed.

(** X4.  Every per-column chart table ([store_inventory] and the like) holds
    the grouped sums, all of them and nothing else, in descending order of
    count. *)
Theorem inventory_by_sorted :
  forall c df groups,
    inventory_by c df = Ok groups ->
    exists sums,
      groupby_sum c "count" df = Ok sums
      /\ Permutation sums groups
      /\ StronglySorted by_count_desc groups.
Proof.
  intros c df groups H. unfold inventory_by in H.
  destruct (groupby_sum c "count" df) as [sums|e]; cbn in H; [|discriminate].
  injection H as <-. exists sums. split; [reflexivity|].
  split; [apply sort_desc_perm|apply sort_desc_sorted].
Qed.

Lemma inventory_by_sorted_witness :
  inventory_by "store_name" Samples.two_stores_table
  = Ok [(PyStr "Store A", 5); (PyStr "Store B", 3)]
  /\ exists sums,
       groupby_sum "store_name" "count" Samples.two_stores_table = Ok sums
       /\ Permutation sums [(PyStr "Store A", 5); (PyStr "Store B", 3)].
Proof.
  split; [reflexivity|].
  destruct (inventory_by_sorted "store_name" Samples.two_stores_table
              [(PyStr "Store A", 5); (PyStr "Store B", 3)] eq_refl)
    as (sums & Hs & Hp & _).
  exists sums. split; [exact Hs|exact Hp].
Defined.

(** X5.  [top_collections] has at most ten entries, the first ten of the
    sorted sums: all of them when there are at most ten collections, and
    otherwise no collection left out has a larger count than one kept. *)
Theorem top_collections_ten :
  forall store_df top,
    top_collections store_df = Ok top ->
    exists groups,
      inventory_by "collection" store_df = Ok groups
      /\ top = firstn 10 groups
      /\ List.length top = Nat.min 10 (List.length groups)
      /\ ((List.length groups <= 10)%nat -> top = groups)
      /\ forall kept dropped,
           In kept top -> In dropped (skipn 10 groups) ->
           snd dropped <= snd kept.
Proof.
  intros store_df top H. unfold top_collections in H.
  destruct (inventory_by "collection" store_df) as [groups|e] eqn:E;
    cbn [bind] in H; [|discriminate].
  assert (Htop : top = firstn 10 groups) by congruence.
  clear H. subst top. exists groups. split; [reflexivity|].
  split; [reflexivity|]. split; [apply length_firstn|]. split.
  - intros Hlen. now apply firstn_all2.
  - pose proof (inventory_by_sorted_aux _ _ _ E) as Hs.
    intros kept dropped Hk Hd.
    rewrite <- (firstn_skipn 10 groups) in Hs.
    exact (strongly_sorted_split _ _ _ Hs kept dropped Hk Hd).
Qed.

Lemma top_collections_ten_witness :
  top_collections Samples.partial_table = Ok [(PyStr "SS25", 0)]
  /\ exists groups,
       inventory_by "collection" Samples.partial_table = Ok groups
       /\ [(PyStr "SS25", 0)] = firstn 10 groups.
Proof.
  split; [reflexivity|].
  destruct (top_collections_ten Samples.partial_table [(PyStr "SS25", 0)]
              eq_refl) as (groups & Hg & Ht & _).
  exists groups. split; [exact Hg|exact Ht].
Defined.

(** X6.  When the grouping column holds strings and nulls, the chart table
    lists every string that occurs in it exactly once, each with the sum of
    count over the rows that carry it; the rows with a null key are in no
    group. *)
Theorem groupby_sum_by_string :
  forall df c (keys : list (option string)) counts,
    get_column c df = Ok (map key_cell keys) ->
    get_column "count" df = Ok counts ->
    List.length keys = List.length counts ->
    exists groups,
      inventory_by c df = Ok groups
      /\ Permutation
           (map (fun s => (PyStr s, sum_where s keys counts))
                (present_keys [] keys))
           groups
      /\ NoDup (present_keys [] keys)
      /\ forall s, In s (present_keys [] keys) <-> In (Some s) keys.
Proof.
  intros df c keys counts Hk Hc Hlen.
  destruct (present_keys_spec keys [] (NoDup_nil _)) as [Hnd Hin].
  eexists. split; [|split; [|split; [exact Hnd|]]].
  - unfold inventory_by, groupby_sum. rewrite Hk, Hc. cbn [bind].
    reflexivity.
  - rewrite <- sort_desc_perm.
    assert (E : group_sums (map key_cell keys) counts []
                = map (fun s => (PyStr s, sum_where s keys counts))
                      (present_keys [] keys)).
    { exact (group_sums_strings keys counts [] (fun _ => 0) Hlen
               (NoDup_nil _) (fun _ _ => eq_refl)). }
    rewrite E. reflexivity.
  - intros s. rewrite Hin. cbn. tauto.
Qed.

Lemma groupby_sum_by_string_witness :
  get_column "category" Samples.partial_table
  = Ok (map key_cell [Some "Tops"; None; None])
  /\ exists groups,
       inventory_by "category" Samples.partial_table = Ok groups
       /\ Permutation [(PyStr "Tops", 5)] groups.
Proof.
  split; [reflexivity|].
  destruct (groupby_sum_by_string Samples.partial_table "category"
              [Some "Tops"; None; None] [PyInt 5; PyInt 3; PyInt 0]
              eq_refl eq_refl eq_refl) as (groups & Hg & Hp & _).
  exists groups. split; [exact Hg|exact Hp].
Defined.

End GroupFacts.

(** ** The shape of the normalized inventory table *)

Module TableFacts.
Import Inventory InventoryViews Plain.








Lemma all_items_stores (p : payload) :
  map (cell "store_name") (all_items p)
  = map (fun s => PyStr (strip s)) (record_stores p).
Proof.
  induction p as [|entry p IH]; [reflexivity|].
  rewrite InventoryFacts.all_items_cons. unfold record_stores.
  cbn [flat_map]. fold (record_stores p). rewrite !map_app.
  f_equal; [|exact IH].
  rewrite !map_map. apply map_ext. intros r. unfold cell.
  now rewrite dict_get_set_same.
Qed.

Lemma all_items_have_store (p : payload) :
  existsb (dict_has "store_name") (all_items p)
  = negb (Nat.eqb (List.length (records p)) 0).
Proof.
  induction p as [|entry p IH]; [reflexivity|].
  rewrite InventoryFacts.all_items_cons, InventoryFacts.records_cons.
  rewrite existsb_app, length_app, IH.
  destruct (snd entry) as [|r rs]; [reflexivity|].
  cbn [map existsb]. unfold dict_has at 1. now rewrite dict_get_set_same.
Qed.

Lemma record_stores_length (p : payload) :
  List.length (record_stores p) = List.length (records p).
Proof.
  induction p as [|entry p IH]; [reflexivity|].
  rewrite InventoryFacts.records_cons. unfold record_stores.
  cbn [flat_map]. fold (record_stores p).
  now rewrite !length_app, length_map, IH.
Qed.

Lemma has_count_nonempty (p : payload) :
  existsb (dict_has "count") (records p) = true ->
  Nat.eqb (List.length (records p)) 0 = false.
Proof. destruct (records p); [discriminate|reflexivity]. Qed.

Lemma process_store_name str_to_num (p : payload) df :
  process_store_data str_to_num p = Ok df ->
  get_column "store_name" df
  = Ok (map (fun s => PyStr (strip s)) (record_stores p)).
Proof.
  rewrite InventoryFacts.process_store_data_eq.
  destruct (existsb (dict_has "count") (records p)) eqn:Ec; [|discriminate].
  destruct (map_result _ _) as [counts|e]; cbn [bind]; [|discriminate].
  intros H. injection H as <-.
  rewrite get_set_column_other by reflexivity.
  rewrite !InventoryFacts.get_default_other by reflexivity.
  rewrite get_column_of_records, all_items_have_store.
  rewrite (has_count_nonempty p Ec). cbn [negb].
  now rewrite all_items_stores.
Qed.



(** X8.  Every table that [process_store_data] returns has the six columns
    store_name, category, collection, gender, size and count, each with one
    cell per item record of the payload, and it has at least one row. *)
Theorem normalized_table_schema :
  forall str_to_num (p : payload) df,
    process_store_data str_to_num p = Ok df ->
    Forall (fun c => exists col,
                get_column c df = Ok col
                /\ List.length col = List.length (records p))
           ["store_name"; "category"; "collection"; "gender"; "size";
            "count"]
    /\ nrows df = List.length (records p)
    /\ (0 < nrows df)%nat
    /\ aligned df.
Proof.
  intros str_to_num p df H.
  pose proof (InventoryFacts.process_aligned _ _ _ H) as Hal.
  pose proof (process_store_name _ _ _ H) as Hs.
  assert (Hn : nrows df = List.length (records p)).
  { rewrite <- (InventoryFacts.aligned_column _ _ _ Hal Hs).
    now rewrite length_map, record_stores_length. }
  assert (Hcat : forall c, In c categorical ->
            exists col, get_column c df = Ok col
                        /\ List.length col = List.length (records p)).
  { intros c Hc.
    rewrite (InventoryFacts.process_categorical_column _ _ _ _ Hc H).
    eexists. split; [reflexivity|].
    destruct (existsb (dict_has c) (records p));
      [apply length_map|apply repeat_length]. }
  destruct (InventoryFacts.process_count_column _ _ _ H)
    as (Hex & counts & Hmap & Hcol).
  split; [|split; [exact Hn|split; [|exact Hal]]].
  - repeat constructor.
    + eexists. split; [exact Hs|].
      now rewrite length_map, record_stores_length.
    + apply Hcat. cbn. tauto.
    + apply Hcat. cbn. tauto.
    + apply Hcat. cbn. tauto.
    + apply Hcat. cbn. tauto.
    + exists counts. split; [exact Hcol|].
      rewrite (InventoryFacts.aligned_column _ _ _ Hal Hcol). exact Hn.
  - rewrite Hn. destruct (records p); [discriminate|cbn; lia].
Qed.

Lemma normalized_table_schema_witness :
  process_store_data Samples.int_literal Samples.two_stores
  = Ok Samples.two_stores_table
  /\ nrows Samples.two_stores_table = 2%nat.
Proof.
  split; [reflexivity|].
  exact (proj1 (proj2 (normalized_table_schema Samples.int_literal
                         Samples.two_stores Samples.two_stores_table
                         eq_refl))).
Defined.

Lemma map_coerce_count_finite str_to_num (l : list record) counts :
  map_result (coerce_count str_to_num) (map (cell "count") l) = Ok counts ->
  forallb (fun r =>
             match to_numeric str_to_num (cell "count" r) with
             | NFloat (FInf _) => false
             | _ => true
             end) l = true.
Proof.
  revert counts. induction l as [|r l IH]; intros counts; [reflexivity|].
  cbn [map map_result forallb]. unfold coerce_count at 1.
  destruct (to_numeric str_to_num (cell "count" r)) as [z|[q|b|]];
    cbn [fillna0 astype_int bind]; try discriminate;
    (destruct (map_result _ _) as [cs|e] eqn:E; cbn [bind]; [|discriminate];
     intros _; now rewrite (IH cs eq_refl)).
Qed.

Lemma map_coerce_count_infinite str_to_num (l : list record) :
  forallb (fun r =>
             match to_numeric str_to_num (cell "count" r) with
             | NFloat (FInf _) => false
             | _ => true
             end) l = false ->
  map_result (coerce_count str_to_num) (map (cell "count") l)
  = Raise IntCastingNaNError.
Proof.
  induction l as [|r l IH]; [discriminate|].
  cbn [map map_result forallb]. unfold coerce_count at 1.
  destruct (to_numeric str_to_num (cell "count" r)) as [z|[q|b|]];
    cbn [fillna0 astype_int bind andb]; try reflexivity;
    intros H; now rewrite (IH H).
Qed.

(** X9.  [process_store_data] returns a table exactly when some item record
    carries a count and no count reads as an infinity.  Otherwise it raises:
    [KeyError] when no record has a count, and the integer-cast error when
    one reads as an infinity. *)
Theorem process_store_data_returns_iff :
  forall str_to_num (p : payload),
    ((exists df, process_store_data str_to_num p = Ok df)
     <-> existsb (dict_has "count") (records p) = true
         /\ finite_counts str_to_num p = true)
    /\ (existsb (dict_has "count") (records p) = false ->
        process_store_data str_to_num p = Raise (KeyError "count"))
    /\ (existsb (dict_has "count") (records p) = true ->
        finite_counts str_to_num p = false ->
        process_store_data str_to_num p = Raise IntCastingNaNError).
Proof.
  intros str_to_num p. split; [split|split].
  - intros [df H].
    destruct (InventoryFacts.process_count_column _ _ _ H)
      as (Hex & counts & Hmap & _).
    split; [exact Hex|]. exact (map_coerce_count_finite _ _ _ Hmap).
  - intros [Hex Hfin].
    now apply InventoryFacts.process_store_data_returns.
  - intros Hex. now rewrite InventoryFacts.process_store_data_eq, Hex.
  - intros Hex Hinf. rewrite InventoryFacts.process_store_data_eq, Hex.
    unfold finite_counts in Hinf.
    now rewrite (map_coerce_count_infinite _ _ Hinf).
Qed.

Lemma process_store_data_returns_iff_witness :
  existsb (dict_has "count") (records Samples.two_stores) = true
  /\ finite_counts Samples.int_literal Samples.two_stores = true
  /\ exists df,
       process_store_data Samples.int_literal Samples.two_stores = Ok df.
Proof.
  split; [reflexivity|]. split; [reflexivity|].
  apply (proj1 (process_store_data_returns_iff Samples.int_literal
                  Samples.two_stores)).
  split; reflexivity.
Defined.

End TableFacts.

(** ** Sorted and distinct selector options *)

Module OrderFacts.
Import Plain.

Section Embedding.
Context {A : Type} (e : A -> pyval) (lt eqb : A -> A -> bool).
Hypothesis lt_e : forall a b, py_lt (e a) (e b) = Ok (lt a b).
Hypothesis eqb_e : forall a b, same_value (e a) (e b) = eqb a b.

Lemma insert_sorted_embed x l :
  insert_sorted (e x) (map e l) = Ok (map e (insert_by lt x l)).
Proof.
  induction l as [|y l IH]; [reflexivity|].
  cbn [map insert_sorted insert_by]. rewrite lt_e. cbn [bind].
  destruct (lt x y); [reflexivity|]. now rewrite IH.
Qed.

Lemma sorted_embed l : sorted (map e l) = Ok (map e (sort_by lt l)).
Proof.
  induction l as [|x l IH]; [reflexivity|].
  cbn [map sorted sort_by]. rewrite IH. cbn [bind].
  apply insert_sorted_embed.
Qed.

Lemma existsb_embed x seen :
  existsb (same_value (e x)) (map e seen) = existsb (eqb x) seen.
Proof.
  induction seen as [|y seen IH]; [reflexivity|].
  cbn [map existsb]. now rewrite eqb_e, IH.
Qed.

Lemma unique_from_embed l : forall seen,
  unique_from (map e seen) (map e l) = map e (distinct_from eqb seen l).
Proof.
  induction l as [|x l IH]; intros seen; [reflexivity|].
  cbn [map unique_from distinct_from]. rewrite existsb_embed.
  destruct (existsb (eqb x) seen); [apply IH|].
  cbn [map]. f_equal. apply (IH (x :: seen)).
Qed.

Lemma unique_embed l : unique (map e l) = map e (distinct eqb l).
Proof. apply (unique_from_embed l []). Qed.

End Embedding.

Section Sorting.
Context {A : Type} (lt : A -> A -> bool).
Hypothesis lt_asym : forall a b, lt a b = true -> lt b a = false.

Lemma insert_by_perm x l : Permutation (x :: l) (insert_by lt x l).
Proof.
  induction l as [|y l IH]; cbn [insert_by]; [reflexivity|].
  destruct (lt x y); [reflexivity|].
  rewrite perm_swap. now apply perm_skip.
Qed.

Lemma sort_by_perm l : Permutation l (sort_by lt l).
Proof.
  induction l as [|x l IH]; [reflexivity|].
  cbn [sort_by]. rewrite <- insert_by_perm. now apply perm_skip.
Qed.

Lemma insert_by_sorted x l :
  Sorted (not_after lt) l -> Sorted (not_after lt) (insert_by lt x l).
Proof.
  induction l as [|y l IH]; intros Hs; cbn [insert_by].
  - repeat constructor.
  - destruct (lt x y) eqn:E.
    + constructor; [exact Hs|]. constructor. unfold not_after.
      now apply lt_asym.
    + inversion Hs; subst. constructor; [now apply IH|].
      destruct l as [|z l]; cbn [insert_by].
      * constructor. exact E.
      * destruct (lt x z); constructor; [exact E|].
        now inversion H2.
Qed.

Lemma sort_by_sorted l : Sorted (not_after lt) (sort_by lt l).
Proof.
  induction l as [|x l IH]; [constructor|].
  cbn [sort_by]. now apply insert_by_sorted.
Qed.

End Sorting.

Section Distinct.
Context {A : Type} (eqb : A -> A -> bool).
Hypothesis eqb_eq : forall a b, eqb a b = true <-> a = b.

Lemma existsb_eqb_In x l : existsb (eqb x) l = true <-> In x l.
Proof.
  rewrite existsb_exists. split.
  - intros (y & Hy & E). apply eqb_eq in E. now subst.
  - intros H. exists x. split; [exact H|now apply eqb_eq].
Qed.

Lemma distinct_from_spec l : forall seen,
  NoDup (distinct_from eqb seen l)
  /\ forall x, In x (distinct_from eqb seen l) <-> In x l /\ ~ In x seen.
Proof.
  induction l as [|y l IH]; intros seen.
  - cbn. split; [constructor|]. tauto.
  - cbn [distinct_from]. destruct (existsb (eqb y) seen) eqn:E.
    + apply existsb_eqb_In in E. destruct (IH seen) as [H1 H2].
      split; [exact H1|]. intros x. rewrite H2. cbn [In]. split; [tauto|].
      intros [[<-|H] Hs]; [contradiction|tauto].
    + assert (Hy : ~ In y seen).
      { intros H. apply existsb_eqb_In in H. congruence. }
      destruct (IH (y :: seen)) as [H1 H2]. split.
      * constructor; [|exact H1]. rewrite H2. cbn [In]. tauto.
      * intros x. cbn [In]. rewrite H2. cbn [In]. split.
        -- intros [<-|[H Hs]]; [tauto|]. tauto.
        -- intros [[<-|H] Hs]; [now left|].
           destruct (existsb (eqb y) [x]) eqn:Ex.
           ++ apply existsb_eqb_In in Ex. destruct Ex as [<-|[]]. now left.
           ++ right. split; [exact H|]. intros [<-|Hin]; [|contradiction].
              cbn in Ex. rewrite orb_false_r in Ex.
              assert (eqb y y = true) by now apply eqb_eq. congruence.
Qed.

Lemma distinct_spec l :
  NoDup (distinct eqb l) /\ forall x, In x (distinct eqb l) <-> In x l.
Proof.
  destruct (distinct_from_spec l []) as [H1 H2]. split; [exact H1|].
  intros x. rewrite H2. cbn. tauto.
Qed.

End Distinct.

(** Strings *)

Lemma ltb_asym (a b : string) : String.ltb a b = true -> String.ltb b a = false.
Proof.
  unfold String.ltb. rewrite (String.compare_antisym b a).
  now destruct (String.compare a b).
Qed.

Lemma ltb_strict (a b : string) :
  String.ltb b a = false -> a <> b -> String.ltb a b = true.
Proof.
  unfold String.ltb. rewrite (String.compare_antisym b a).
  destruct (String.compare a b) eqn:E; cbn; try congruence.
  intros _ H. apply String.compare_eq_iff in E. congruence.
Qed.

Lemma same_value_str (a b : string) :
  same_value (PyStr a) (PyStr b) = String.eqb a b.
Proof. unfold same_value. cbn. apply orb_false_r. Qed.

Lemma sorted_strict {A} (R S : A -> A -> Prop) (l : list A) :
  (forall a b, R a b -> a <> b -> S a b) ->
  Sorted R l -> NoDup l -> Sorted S l.
Proof.
  intros HRS. induction l as [|x l IH]; intros Hs Hnd; [constructor|].
  inversion Hs; subst. inversion Hnd; subst.
  constructor; [now apply IH|].
  destruct l as [|y l]; constructor.
  inversion H2; subst. apply HRS; [assumption|].
  intros ->. apply H3. now left.
Qed.

(** The options a selector builds from a column of strings. *)
Lemma string_options (names : list string) :
  exists options,
    sorted (unique (map PyStr names)) = Ok (map PyStr options)
    /\ NoDup options
    /\ Sorted (fun a b => String.ltb a b = true) options
    /\ forall s, In s options <-> In s names.
Proof.
  exists (sort_by String.ltb (distinct String.eqb names)).
  destruct (distinct_spec String.eqb String.eqb_eq names) as [Hnd Hin].
  pose proof (sort_by_perm String.ltb (distinct String.eqb names)) as Hp.
  assert (Hnd' : NoDup (sort_by String.ltb (distinct String.eqb names))).
  { eapply Permutation_NoDup; [exact Hp|exact Hnd]. }
  split; [|split; [exact Hnd'|split]].
  - rewrite (unique_embed PyStr String.eqb same_value_str).
    apply (sorted_embed PyStr String.ltb). reflexivity.
  - apply (sorted_strict (not_after String.ltb)); [|
      apply (sort_by_sorted String.ltb ltb_asym)|exact Hnd'].
    intros a b Hab Hne. now apply ltb_strict.
  - intros s. rewrite <- Hin. split; intros H.
    + eapply Permutation_in; [symmetry; exact Hp|exact H].
    + eapply Permutation_in; [exact Hp|exact H].
Qed.

End OrderFacts.

(** ** What the selectors offer *)

Module SelectorFacts.
Import Plain OrderFacts.

Lemma py_lt_int (a b : Z) : py_lt (PyInt a) (PyInt b) = Ok (a <? b).
Proof.
  cbn. unfold Qle_bool. cbn. rewrite !Z.mul_1_r.
  now rewrite Z.ltb_antisym.
Qed.

Lemma same_value_int (a b : Z) : same_value (PyInt a) (PyInt b) = (a =? b).
Proof.
  unfold same_value. cbn. unfold Qeq_bool. cbn. rewrite !Z.mul_1_r.
  apply orb_false_r.
Qed.

Lemma ltb_int_asym (a b : Z) : (a <? b) = true -> (b <? a) = false.
Proof. intros H. apply Z.ltb_lt in H. apply Z.ltb_ge. lia. Qed.

Lemma int_options (ys : list Z) :
  exists ascending,
    sorted (unique (map PyInt ys)) = Ok (map PyInt ascending)
    /\ NoDup ascending
    /\ StronglySorted Z.lt ascending
    /\ forall y, In y ascending <-> In y ys.
Proof.
  exists (sort_by Z.ltb (distinct Z.eqb ys)).
  destruct (distinct_spec Z.eqb Z.eqb_eq ys) as [Hnd Hin].
  pose proof (sort_by_perm Z.ltb (distinct Z.eqb ys)) as Hp.
  assert (Hnd' : NoDup (sort_by Z.ltb (distinct Z.eqb ys))).
  { eapply Permutation_NoDup; [exact Hp|exact Hnd]. }
  split; [|split; [exact Hnd'|split]].
  - rewrite (unique_embed PyInt Z.eqb same_value_int).
    apply (sorted_embed PyInt Z.ltb). exact py_lt_int.
  - apply Sorted_StronglySorted; [intros a b c; apply Z.lt_trans|].
    apply (sorted_strict (not_after Z.ltb)); [|
      apply (sort_by_sorted Z.ltb ltb_int_asym)|exact Hnd'].
    intros a b Hab Hne. unfold not_after in Hab. apply Z.ltb_ge in Hab. lia.
  - intros y. rewrite <- Hin. split; intros H.
    + eapply Permutation_in; [symmetry; exact Hp|exact H].
    + eapply Permutation_in; [exact Hp|exact H].
Qed.

(** X10.  From a store_name column of strings, the store selector of either
    page offers the wildcard followed by the store names of the table, each
    once, in strictly ascending order; building it never raises. *)
Theorem store_options :
  forall df (names : list string),
    get_column "store_name" df = Ok (map PyStr names) ->
    exists stores,
      Inventory.all_stores df = Ok (PyStr "All Stores" :: map PyStr stores)
      /\ Sales.all_stores_option df
         = Ok (PyStr "All Stores" :: map PyStr stores)
      /\ NoDup stores
      /\ Sorted (fun a b => String.ltb a b = true) stores
      /\ forall s, In s stores <-> In s names.
Proof.
  intros df names Hc.
  destruct (string_options names) as (stores & Hs & Hnd & Hsorted & Hin).
  exists stores.
  unfold Inventory.all_stores, Sales.all_stores_option.
  rewrite Hc. cbn [bind]. rewrite Hs. cbn [bind].
  repeat split; try assumption; now apply Hin.
Qed.

Lemma store_options_witness :
  get_column "store_name" Samples.two_stores_table
  = Ok (map PyStr ["Store A"; "Store B"])
  /\ exists stores,
       Inventory.all_stores Samples.two_stores_table
       = Ok (PyStr "All Stores" :: map PyStr stores)
       /\ NoDup stores.
Proof.
  split; [reflexivity|].
  destruct (store_options Samples.two_stores_table ["Store A"; "Store B"]
              eq_refl) as (stores & Hs & _ & Hnd & _).
  exists stores. split; [exact Hs|exact Hnd].
Defined.

(** X11.  In a table whose product_category column was derived by
    [categorize_product], the category selector of the sales page offers the
    wildcard followed by the labels that occur, each once and in ascending
    order; every option after the wildcard is one of the twelve labels, so
    there are at most thirteen options. *)
Theorem category_options :
  forall df (item_name : list pyval),
    get_column "product_category" df
    = Ok (Sales.apply_categorize item_name) ->
    exists labels,
      Sales.all_categories df
      = Ok (PyStr "All Categories" :: map PyStr labels)
      /\ NoDup labels
      /\ Sorted (fun a b => String.ltb a b = true) labels
      /\ (forall l, In l labels
                    <-> exists v, In v item_name
                                  /\ Sales.categorize_product v = l)
      /\ incl labels Sales.category_labels
      /\ (List.length labels <= 12)%nat.
Proof.
  intros df item_name Hc.
  assert (E : Sales.apply_categorize item_name
              = map PyStr (map Sales.categorize_product item_name)).
  { unfold Sales.apply_categorize. now rewrite map_map. }
  rewrite E in Hc.
  destruct (string_options (map Sales.categorize_product item_name))
    as (labels & Hs & Hnd & Hsorted & Hin).
  exists labels.
  assert (Hincl : incl labels Sales.category_labels).
  { intros l Hl. apply Hin, in_map_iff in Hl. destruct Hl as (v & <- & _).
    apply SalesFacts.categorize_in_labels. }
  unfold Sales.all_categories. rewrite Hc. cbn [bind]. rewrite Hs.
  cbn [bind].
  split; [reflexivity|]. split; [exact Hnd|]. split; [exact Hsorted|].
  split; [|split; [exact Hincl|]].
  - intros l. rewrite Hin, in_map_iff. split.
    + intros (v & Hv & Hi). now exists v.
    + intros (v & Hi & Hv). now exists v.
  - change 12%nat with (List.length Sales.category_labels).
    now apply NoDup_incl_length.
Qed.

Lemma category_options_witness :
  get_column "product_category" Samples.sales_table
  = Ok (Sales.apply_categorize
          [PyStr "Kimono Gilet Jacket"; PyStr "Denim Jeans"])
  /\ exists labels,
       Sales.all_categories Samples.sales_table
       = Ok (PyStr "All Categories" :: map PyStr labels)
       /\ (List.length labels <= 12)%nat.
Proof.
  split; [reflexivity|].
  destruct (category_options Samples.sales_table
              [PyStr "Kimono Gilet Jacket"; PyStr "Denim Jeans"] eq_refl)
    as (labels & Hl & _ & _ & _ & _ & Hlen).
  exists labels. split; [exact Hl|exact Hlen].
Defined.

(** X12.  From a year column of integers, the year selector offers the
    years of the table, each once, from the latest to the earliest; its
    first option, the one selected when the page opens, is the latest year
    of the data, and there is an option as soon as there is a row. *)
Theorem year_options :
  forall df (ys : list Z),
    get_column "year" df = Ok (map PyInt ys) ->
    exists options,
      Sales.years df = Ok (map PyInt options)
      /\ NoDup options
      /\ StronglySorted Z.lt (rev options)
      /\ (forall y, In y options <-> In y ys)
      /\ (forall latest rest,
            options = latest :: rest -> forall y, In y ys -> y <= latest)
      /\ (ys <> [] -> options <> []).
Proof.
  intros df ys Hc.
  destruct (int_options ys) as (asc & Hs & Hnd & Hsorted & Hin).
  exists (rev asc). unfold Sales.years. rewrite Hc. cbn [bind].
  rewrite Hs. cbn [bind]. rewrite map_rev.
  split; [reflexivity|]. split; [now apply NoDup_rev|].
  split; [now rewrite rev_involutive|].
  split; [intros y; now rewrite <- in_rev|].
  split.
  - intros latest rest Hrev y Hy.
    assert (Ha : asc = rev rest ++ [latest]).
    { rewrite <- (rev_involutive asc), Hrev. reflexivity. }
    apply Hin in Hy. rewrite Ha in Hy, Hsorted.
    apply in_app_iff in Hy. destruct Hy as [Hy|[<-|[]]]; [|lia].
    pose proof (GroupFacts.strongly_sorted_split _ _ _ Hsorted y latest Hy
                  (or_introl eq_refl)).
    lia.
  - intros Hne Hrev. destruct ys as [|y ys]; [congruence|].
    assert (Hy : In y asc) by (apply Hin; now left).
    apply in_rev in Hy. rewrite Hrev in Hy. destruct Hy.
Qed.

Lemma year_options_witness :
  get_column "year" Samples.sales_table = Ok (map PyInt [2024; 2025])
  /\ exists options,
       Sales.years Samples.sales_table = Ok (map PyInt options)
       /\ NoDup options.
Proof.
  split; [reflexivity|].
  destruct (year_options Samples.sales_table [2024; 2025] eq_refl)
    as (options & Ho & Hnd & _).
  exists options. split; [exact Ho|exact Hnd].
Defined.

End SelectorFacts.

(** ** The sales normalizer on its edges *)

Module LoadFacts.
Import Sales SalesViews.

Lemma ui_bind_lift_ok {A B} (a : A) (k : A -> ui B) :
  ui_bind (lift (Ok a)) k = k a.
Proof. unfold lift, ui_bind. now destruct (k a). Qed.

Lemma ui_bind_lift_raise {A B} (e : exn) (k : A -> ui B) :
  ui_bind (lift (Raise e)) k = ([], Raise e).
Proof. reflexivity. Qed.

Lemma ui_bind_ret {A B} (a : A) (k : A -> ui B) :
  ui_bind (ret a) k = k a.
Proof. unfold ret, ui_bind. now destruct (k a). Qed.

Lemma load_data_delivered to_datetime r rs :
  delivers r rs ->
  exists body l,
    getitem body "data" = Ok (PyList l) /\ as_records l = Some rs
    /\ load_data to_datetime (Ok r) = normalize to_datetime (Some body).
Proof.
  intros (Hcode & body & l & Hj & Hd & Hrs). exists body, l.
  split; [exact Hd|]. split; [exact Hrs|].
  unfold load_data, fetch_json, try_except.
  rewrite ui_bind_lift_ok, Hcode. cbn [Z.eqb Pos.eqb].
  rewrite Hj, ui_bind_lift_ok. unfold ret at 1. cbn [ui_bind].
  destruct (normalize to_datetime (Some body)). reflexivity.
Qed.

Lemma map_result_all {A B} (f : A -> result B) (l : list A) :
  (forall x, In x l -> exists y, f x = Ok y) ->
  exists out, map_result f l = Ok out.
Proof.
  induction l as [|x l IH]; intros H; [now eexists|].
  destruct (H x (or_introl eq_refl)) as [y Hy].
  destruct IH as [out Ho]; [intros z Hz; apply H; now right|].
  cbn. rewrite Hy, Ho. cbn. now eexists.
Qed.

Lemma normalize_stages to_datetime body l rs :
  getitem body "data" = Ok (PyList l) -> as_records l = Some rs ->
  normalize to_datetime (Some body)
  = (df <-- dated to_datetime (of_records rs) ;;; derived df).
Proof.
  intros Hd Hrs. unfold normalize. cbn [read_local].
  rewrite ui_bind_lift_ok, Hd, ui_bind_lift_ok.
  unfold frame_of. rewrite Hrs, ui_bind_lift_ok. reflexivity.
Qed.

Lemma derived_ok df dates store_name item_name :
  get_column "date" df = Ok dates ->
  get_column "store_name" df = Ok store_name ->
  get_column "item_name" df = Ok item_name ->
  derived df
  = ([], Ok (set_column "product_category" (apply_categorize item_name)
               (set_column "store_name" (map str_strip store_name)
                  (set_column "month_year" (map strftime_b_Y dates)
                     (set_column "year" (map dt_year dates)
                        (set_column "month_name" (map strftime_b dates)
                           df)))))).
Proof.
  intros Hdate Hs Hi. unfold derived.
  rewrite Hdate, ui_bind_lift_ok. cbv zeta.
  rewrite !get_set_column_other by reflexivity.
  rewrite Hs, ui_bind_lift_ok.
  rewrite !get_set_column_other by reflexivity.
  rewrite Hi, ui_bind_lift_ok. reflexivity.
Qed.



(** The date stage never fails when the dates parse. *)
Lemma dated_ok to_datetime rs :
  (existsb (dict_has "month") rs = true -> dates_parse to_datetime rs) ->
  exists dates log,
    dated to_datetime (of_records rs)
    = (log, Ok (set_column "date" dates (of_records rs)))
    /\ List.length dates = List.length rs
    /\ log = (if existsb (dict_has "month") rs then []
              else [StWarning
                      "No 'month' field found in data. Please check API structure."
                      ArgNone])
    /\ (existsb (dict_has "month") rs = false ->
        dates = repeat (PyDate (mkDate 2025 1 1)) (List.length rs)).
Proof.
  intros Hp. unfold dated.
  rewrite has_column_of_records, get_column_of_records.
  destruct (existsb (dict_has "month") rs) eqn:Em.
  - assert (Hall : forall v, In v (map (cell "month") rs) ->
                     exists y, date_cell to_datetime v = Ok y).
    { intros v Hv. destruct (Hp eq_refl v Hv) as [d Hd]. unfold date_cell.
      rewrite Hd. cbn. now eexists. }
    destruct (map_result_all _ _ Hall) as [dates Hdates].
    exists dates, []. rewrite ui_bind_lift_ok, Hdates, ui_bind_lift_ok.
    split; [reflexivity|]. split; [|split; [reflexivity|discriminate]].
    destruct (InventoryFacts.map_result_nth _ _ _ Hdates) as [Hlen _].
    now rewrite Hlen, length_map.
  - eexists. eexists. split; [reflexivity|].
    cbn [nrows of_records]. split; [apply repeat_length|].
    split; reflexivity.
Qed.

Lemma has_set_column_same c vals df :
  has_column c (set_column c vals df) = true.
Proof.
  unfold has_column, dict_has, set_column. cbn.
  now rewrite dict_get_set_same.
Qed.

(** Columns of the frame once the date column is set. *)
Lemma dated_column c dates rs :
  String.eqb c "date" = false ->
  get_column c (set_column "date" dates (of_records rs))
  = if existsb (dict_has c) rs then Ok (map (cell c) rs)
    else Raise (KeyError c).
Proof.
  intros Hc. rewrite get_set_column_other by exact Hc.
  apply get_column_of_records.
Qed.


Lemma load_data_stages to_datetime r rs :
  delivers r rs ->
  (existsb (dict_has "month") rs = true -> dates_parse to_datetime rs) ->
  exists dates log,
    load_data to_datetime (Ok r)
    = (let (log', out) :=
         derived (set_column "date" dates (of_records rs)) in
       (log ++ log', out))
    /\ List.length dates = List.length rs
    /\ log = (if existsb (dict_has "month") rs then []
              else [StWarning
                      "No 'month' field found in data. Please check API structure."
                      ArgNone])
    /\ (existsb (dict_has "month") rs = false ->
        dates = repeat (PyDate (mkDate 2025 1 1)) (List.length rs)).
Proof.
  intros Hdel Hp.
  destruct (load_data_delivered to_datetime r rs Hdel)
    as (body & l & Hd & Hrs & Hload).
  destruct (dated_ok to_datetime rs Hp) as (dates & log & Hdated & H).
  exists dates, log. split; [|exact H].
  rewrite Hload, (normalize_stages _ _ _ _ Hd Hrs), Hdated. reflexivity.
Qed.

Lemma named_store_has (rs : list record) :
  named_store rs = true -> existsb (dict_has "store_name") rs = true.
Proof.
  unfold named_store. induction rs as [|x rs IH]; [discriminate|].
  cbn [existsb]. intros H. apply orb_true_iff in H. apply orb_true_iff.
  destruct H as [H|H]; [left|right; now apply IH].
  unfold cell, dict_has in *. now destruct (dict_get "store_name" x).
Qed.




(** The table of a delivered list of records. *)
Lemma load_data_table to_datetime r rs :
  delivers r rs ->
  (existsb (dict_has "month") rs = true -> dates_parse to_datetime rs) ->
  existsb (dict_has "store_name") rs = true ->
  existsb (dict_has "item_name") rs = true ->
  exists dates,
    load_data to_datetime (Ok r)
    = ((if existsb (dict_has "month") rs then []
        else [StWarning
                "No 'month' field found in data. Please check API structure."
                ArgNone]),
       Ok (set_column "product_category"
             (apply_categorize (map (cell "item_name") rs))
             (set_column "store_name"
                (map str_strip (map (cell "store_name") rs))
                (set_column "month_year" (map strftime_b_Y dates)
                   (set_column "year" (map dt_year dates)
                      (set_column "month_name" (map strftime_b dates)
                         (set_column "date" dates (of_records rs))))))))
    /\ List.length dates = List.length rs
    /\ (existsb (dict_has "month") rs = false ->
        dates = repeat (PyDate (mkDate 2025 1 1)) (List.length rs)).
Proof.
  intros Hdel Hp Hs Hi.
  destruct (load_data_stages to_datetime r rs Hdel Hp)
    as (dates & log & Hload & Hlen & Hlog & Hplace).
  exists dates. split; [|split; assumption].
  rewrite Hload.
  rewrite (derived_ok _ dates (map (cell "store_name") rs)
             (map (cell "item_name") rs)).
  - subst log. now rewrite app_nil_r.
  - apply get_set_column_same.
  - rewrite dated_column by reflexivity. now rewrite Hs.
  - rewrite dated_column by reflexivity. now rewrite Hi.
Qed.



(** X15.  When no record has a month (and some record has a string as
    store name and some an item name), [load_data] reports one warning and
    dates every row 1 January 2025: in the table it returns every year is
    2025, every month name "Jan" and every month-year label "Jan 2025". *)
Theorem load_data_placeholder_date :
  forall to_datetime r rs,
    delivers r rs ->
    existsb (dict_has "month") rs = false ->
    named_store rs = true ->
    existsb (dict_has "item_name") rs = true ->
    exists df,
      load_data to_datetime (Ok r)
      = ([StWarning
            "No 'month' field found in data. Please check API structure."
            ArgNone], Ok df)
      /\ get_column "year" df = Ok (repeat (PyInt 2025) (List.length rs))
      /\ get_column "month_name" df
         = Ok (repeat (PyStr "Jan") (List.length rs))
      /\ get_column "month_year" df
         = Ok (repeat (PyStr "Jan 2025") (List.length rs)).
Proof.
  intros to_datetime r rs Hdel Hm Hn Hi.
  pose proof (named_store_has _ Hn) as Hs.
  destruct (load_data_table to_datetime r rs Hdel
              (fun H => False_ind _ (eq_true_false_abs _ H Hm)) Hs Hi)
    as (dates & Hload & Hlen & Hplace).
  specialize (Hplace Hm). subst dates.
  eexists. rewrite Hload, Hm. split; [reflexivity|].
  repeat split;
    repeat (rewrite get_set_column_other by reflexivity);
    now rewrite get_set_column_same, map_repeat.
Qed.

Lemma load_data_placeholder_date_witness :
  delivers MoreSamples.undated_sales MoreSamples.undated_records
  /\ exists df,
       snd (load_data Samples.iso_date (Ok MoreSamples.undated_sales)) = Ok df
       /\ get_column "month_year" df = Ok [PyStr "Jan 2025"].
Proof.
  assert (Hd : delivers MoreSamples.undated_sales MoreSamples.undated_records).
  { split; [reflexivity|]. do 2 eexists. repeat split; reflexivity. }
  split; [exact Hd|].
  destruct (load_data_placeholder_date Samples.iso_date
              MoreSamples.undated_sales MoreSamples.undated_records Hd
              eq_refl eq_refl eq_refl) as (df & Hdf & _ & _ & Hmy).
  exists df. split; [now rewrite Hdf|exact Hmy].
Defined.

End LoadFacts.

(** ** Months, periods and metric changes *)

Module MetricFacts.
Import Sales SalesViews.

(** X16.  [sort_month] gives a month name made by [load_data] from a date
    its calendar position, January 0 to December 11, and gives -1 to every
    value that is not one of the twelve names, nulls included: sorting on
    it puts the months in calendar order. *)
Theorem sort_month_calendar :
  (forall t : date,
     (1 <= d_month t <= 12)%nat ->
     sort_month (strftime_b (PyDate t)) = Z.of_nat (d_month t) - 1)
  /\ (forall v, sort_month v = -1 \/ 0 <= sort_month v <= 11)
  /\ (forall v, isna v = true -> sort_month v = -1)
  /\ (forall s, ~ In s month_abbr -> sort_month (PyStr s) = -1)
  /\ (forall t u : date,
        (1 <= d_month t <= 12)%nat -> (1 <= d_month u <= 12)%nat ->
        (sort_month (strftime_b (PyDate t)) < sort_month (strftime_b (PyDate u))
         <-> (d_month t < d_month u)%nat)).
Proof.
  assert (H1 : forall t : date,
             (1 <= d_month t <= 12)%nat ->
             sort_month (strftime_b (PyDate t)) = Z.of_nat (d_month t) - 1).
  { intros [y m d] Hm. cbn [d_month] in Hm. cbn [strftime_b d_month].
    do 13 (destruct m as [|m]; [try lia; reflexivity|]). lia. }
  split; [exact H1|]. split; [|split; [|split]].
  - intros v. unfold sort_month, month_display_order.
    destruct v as [| | | |s| | | |]; try (left; reflexivity).
    cbn [map index_of].
    repeat match goal with
           | |- context [key_eqb (PyStr ?a) (PyStr s)] =>
               change (key_eqb (PyStr a) (PyStr s)) with (String.eqb a s);
               destruct (String.eqb a s); [right; cbn; lia|]
           end.
    left. reflexivity.
  - intros v Hv. destruct v; try discriminate; reflexivity.
  - intros s Hs. unfold sort_month, month_display_order.
    unfold month_abbr in Hs. cbn [map index_of]. cbn [In] in Hs.
    repeat match goal with
           | |- context [key_eqb (PyStr ?a) (PyStr s)] =>
               let E := fresh "E" in
               change (key_eqb (PyStr a) (PyStr s)) with (String.eqb a s);
               destruct (String.eqb a s) eqn:E;
               [apply String.eqb_eq in E; tauto|]
           end.
    reflexivity.
  - intros t u Ht Hu. rewrite (H1 t Ht), (H1 u Hu). lia.
Qed.

Lemma sort_month_calendar_witness :
  (1 <= d_month (mkDate 2025 3 14) <= 12)%nat
  /\ sort_month (strftime_b (PyDate (mkDate 2025 3 14))) = 2.
Proof.
  assert (H : (1 <= d_month (mkDate 2025 3 14) <= 12)%nat) by (cbn; lia).
  split; [exact H|].
  exact (proj1 sort_month_calendar (mkDate 2025 3 14) H).
Defined.

(** Rationals *)

Lemma q_sign_pos (p : Q) : (0 < p)%Q -> q_sign p = Some false.
Proof.
  destruct p as [n d]. unfold Qlt, q_sign. cbn. intros H.
  destruct n; try lia. reflexivity.
Qed.

Lemma float_ltb_zero (p : Q) : float_ltb (FFin 0) (FFin p) = true <-> (0 < p)%Q.
Proof.
  cbn. rewrite negb_true_iff. split.
  - intros H. apply Qnot_le_lt. intros Hle.
    apply Qle_bool_iff in Hle. congruence.
  - intros H. destruct (Qle_bool p 0) eqn:E; [|reflexivity].
    apply Qle_bool_iff in E. lra.
Qed.

Lemma quotient_times (t p : Q) :
  ~ (p == 0)%Q -> ((t - p) / p * 100 * (p / 100) == t - p)%Q.
Proof. intros Hp. field. exact Hp. Qed.

Lemma pct_zero_iff (t p : Q) :
  (0 < p)%Q -> ((t - p) / p * 100 == 0 <-> t == p)%Q.
Proof.
  intros Hp. assert (Hne : ~ (p == 0)%Q) by lra.
  pose proof (quotient_times t p Hne) as H. split; intros E.
  - rewrite E in H. lra.
  - assert (Ht : (t - p == 0)%Q) by lra.
    rewrite Ht. field. exact Hne.
Qed.

Lemma pct_sign (t p : Q) :
  (0 < p)%Q ->
  ((0 < (t - p) / p * 100 <-> p < t)
   /\ ((t - p) / p * 100 < 0 <-> t < p)
   /\ (0 <= t -> -100 <= (t - p) / p * 100))%Q.
Proof.
  intros Hp. assert (Hne : ~ (p == 0)%Q) by lra.
  pose proof (quotient_times t p Hne) as H.
  set (q := ((t - p) / p * 100)%Q) in *.
  assert (Hk : (0 < p / 100)%Q).
  { apply Qlt_shift_div_l; lra. }
  set (k := (p / 100)%Q) in *.
  assert (Hpk : (p == 100 * k)%Q) by (unfold k; field).
  repeat split; intros; nra.
Qed.

(** X17.  The change of a metric against the baseline never divides by
    zero: between finite values it is finite, it is 0 when the baseline is
    zero, negative or NaN, and the percentage otherwise.  The page shows
    "N/A" in place of the change exactly when there is no positive baseline
    or the metric is unchanged. *)
Theorem items_change_guarded :
  forall total previous : Q,
    (exists q, items_change (FFin total) (FFin previous) = FFin q)
    /\ ((previous <= 0)%Q ->
        items_change (FFin total) (FFin previous) = FFin 0)
    /\ ((0 < previous)%Q ->
        items_change (FFin total) (FFin previous)
        = FFin ((total - previous) / previous * 100))
    /\ items_change (FFin total) FNaN = FFin 0
    /\ (delta (items_change (FFin total) (FFin previous)) = None
        <-> (previous <= 0)%Q \/ (total == previous)%Q).
Proof.
  intros t p.
  assert (Hnon : (p <= 0)%Q -> items_change (FFin t) (FFin p) = FFin 0).
  { intros Hp. unfold items_change.
    destruct (float_ltb (FFin 0) (FFin p)) eqn:E; [|reflexivity].
    apply float_ltb_zero in E. lra. }
  assert (Hpos : (0 < p)%Q ->
            items_change (FFin t) (FFin p) = FFin ((t - p) / p * 100)).
  { intros Hp. unfold items_change.
    rewrite (proj2 (float_ltb_zero p) Hp).
    unfold f_sub, f_add, f_opp, f_div, f_mul.
    now rewrite (q_sign_pos p Hp). }
  split; [|split; [exact Hnon|split; [exact Hpos|split; [reflexivity|]]]].
  - destruct (Qlt_le_dec 0 p) as [Hp|Hp].
    + eexists. now apply Hpos.
    + eexists. now apply Hnon.
  - destruct (Qlt_le_dec 0 p) as [Hp|Hp].
    + rewrite (Hpos Hp). unfold delta, truthy.
      destruct (Qeq_bool ((t - p) / p * 100) 0) eqn:E; cbn [negb].
      * apply Qeq_bool_iff in E. apply (pct_zero_iff t p Hp) in E.
        split; [now right|reflexivity].
      * split; [discriminate|]. intros [H|H]; [lra|].
        apply (pct_zero_iff t p Hp) in H. apply Qeq_bool_iff in H.
        congruence.
    + rewrite (Hnon Hp). split; [now left|reflexivity].
Qed.

(** X18.  Where the previous total is positive, the growth rate of a month
    is positive exactly when the total rose, negative exactly when it fell
    and zero exactly when it stayed; a total that is not negative never
    gives a rate below -100. *)
Theorem growth_rate_sign :
  forall previous total : Q,
    (0 < previous)%Q ->
    rate previous total = FFin ((total - previous) / previous * 100)
    /\ ((0 < (total - previous) / previous * 100 <-> previous < total)
        /\ ((total - previous) / previous * 100 < 0 <-> total < previous)
        /\ ((total - previous) / previous * 100 == 0 <-> total == previous)
        /\ (0 <= total -> -100 <= (total - previous) / previous * 100))%Q.
Proof.
  intros p t Hp. split.
  - apply GrowthFacts.rate_finite.
    destruct (Qeq_bool p 0) eqn:E; [|reflexivity].
    apply Qeq_bool_iff in E. lra.
  - destruct (pct_sign t p Hp) as (H1 & H2 & H3).
    split; [exact H1|]. split; [exact H2|].
    split; [exact (pct_zero_iff t p Hp)|exact H3].
Qed.

Lemma growth_rate_sign_witness :
  (0 < 10)%Q
  /\ rate 10 15 = FFin ((15 - 10) / 10 * 100)
  /\ (0 < (15 - 10) / 10 * 100)%Q.
Proof.
  assert (H : (0 < 10)%Q) by reflexivity.
  split; [exact H|]. split.
  - exact (proj1 (growth_rate_sign 10 15 H)).
  - apply (proj1 (proj2 (growth_rate_sign 10 15 H))). reflexivity.
Defined.

(** The earliest year *)

Lemma min_from_int (l : list Z) : forall m,
  min_from (PyInt m) (map PyInt l) = Ok (PyInt (fold_left Z.min l m)).
Proof.
  induction l as [|x l IH]; intros m; [reflexivity|].
  cbn [map min_from fold_left]. rewrite SelectorFacts.py_lt_int.
  cbn [bind].
  replace (if x <? m then PyInt x else PyInt m) with (PyInt (Z.min m x)).
  - apply IH.
  - destruct (x <? m) eqn:E.
    + apply Z.ltb_lt in E. f_equal. lia.
    + apply Z.ltb_ge in E. f_equal. lia.
Qed.

Lemma fold_min_spec (l : list Z) : forall m,
  In (fold_left Z.min l m) (m :: l)
  /\ forall y, In y (m :: l) -> fold_left Z.min l m <= y.
Proof.
  induction l as [|x l IH]; intros m; cbn [fold_left].
  - split; [now left|]. intros y [<-|[]]. lia.
  - destruct (IH (Z.min m x)) as [Hin Hle]. split.
    + destruct Hin as [E|Hin]; [|right; now right].
      rewrite <- E. destruct (Z.min_spec m x) as [[_ ->]|[_ ->]];
        [now left|right; now left].
    + intros y Hy.
      pose proof (Hle (Z.min m x) (or_introl eq_refl)) as H0.
      destruct Hy as [E|[E|Hy]]; [lia|lia|].
      apply Hle. now right.
Qed.

Lemma earliest_year (ys : list Z) (y : Z) :
  In y ys ->
  exists first,
    py_min (map PyInt ys) = Ok (PyInt first)
    /\ ((first <? y) = false <-> forall y', In y' ys -> y <= y').
Proof.
  destruct ys as [|x l]; [intros []|]. intros Hy.
  exists (fold_left Z.min l x). cbn [map py_min].
  split; [apply min_from_int|].
  destruct (fold_min_spec l x) as [Hin Hle]. rewrite Z.ltb_ge. split.
  - intros H y' Hy'. specialize (Hle y' Hy'). lia.
  - intros H. apply H. exact Hin.
Qed.

(** X19.  With the year chosen among the years of the data, picking the
    baseline of the metrics never raises.  For a selected month it is the
    rows of the calendar month just before: the month before in the same
    year, and December of the year before for January.  For all months it
    is the rows of the year before.  There is no baseline only for January
    or all months of the earliest year. *)
Theorem previous_period_precedes :
  forall df (ys : list Z) (y : Z) year month_name,
    get_column "year" df = Ok year ->
    get_column "month_name" df = Ok month_name ->
    In y ys ->
    (forall i, (i < 12)%nat ->
       exists baseline,
         previous_period_df df (map PyInt ys) (PyInt y)
           (PyStr (nth i month_abbr "")) = Ok baseline
         /\ (baseline = None
             <-> i = 0%nat /\ forall y', In y' ys -> y <= y')
         /\ forall b, baseline = Some b ->
              exists y' j,
                12 * y' + Z.of_nat j = 12 * y + Z.of_nat i - 1
                /\ (j < 12)%nat
                /\ b = select_rows
                         (zip_with andb
                            (map (fun v => key_eqb v (PyInt y')) year)
                            (map (fun v =>
                                    key_eqb v (PyStr (nth j month_abbr "")))
                                 month_name))
                         df)
    /\ exists baseline,
         previous_period_df df (map PyInt ys) (PyInt y) (PyStr "All Months")
         = Ok baseline
         /\ (baseline = None <-> forall y', In y' ys -> y <= y')
         /\ forall b, baseline = Some b ->
              b = select_rows (map (fun v => key_eqb v (PyInt (y - 1))) year)
                    df.
Proof.
  intros df ys y year month_name Hy Hm Hin.
  destruct (earliest_year ys y Hin) as (first & Hfirst & Hearly).
  split.
  - intros i Hi. destruct i as [|i].
    + (* January *)
      unfold previous_period_df.
      change (negb (eq_str (PyStr (nth 0 month_abbr "")) "All Months"))
        with true.
      change (list_index (PyStr (nth 0 month_abbr "")) months) with (Ok 1%nat).
      cbn [bind Nat.ltb Nat.leb]. rewrite Hfirst. cbn [bind].
      rewrite SelectorFacts.py_lt_int. cbn [bind].
      destruct (first <? y) eqn:E.
      * cbn [minus_one bind]. unfold year_month_rows. rewrite Hy, Hm.
        cbn [bind]. eexists. split; [reflexivity|]. split.
        -- split; [discriminate|]. intros [_ H]. apply Hearly in H.
           congruence.
        -- intros b Hb. injection Hb as <-. exists (y - 1), 11%nat.
           split; [lia|]. split; [lia|reflexivity].
      * eexists. split; [reflexivity|]. split.
        -- split; [|reflexivity]. intros _. split; [reflexivity|].
           now apply Hearly.
        -- discriminate.
    + (* February to December *)
      assert (Hstep : previous_period_df df (map PyInt ys) (PyInt y)
                        (PyStr (nth (S i) month_abbr ""))
                      = (previous <- year_month_rows df (PyInt y)
                                       (PyStr (nth i month_abbr "")) ;;
                         Ok (Some previous))).
      { do 11 (destruct i as [|i]; [reflexivity|]). lia. }
      rewrite Hstep. unfold year_month_rows. rewrite Hy, Hm. cbn [bind].
      eexists. split; [reflexivity|]. split.
      * split; [discriminate|]. intros [H _]. discriminate.
      * intros b Hb. injection Hb as <-. exists y, i.
        split; [lia|]. split; [lia|reflexivity].
  - unfold previous_period_df.
    change (negb (eq_str (PyStr "All Months") "All Months")) with false.
    cbv iota. rewrite Hfirst. cbn [bind].
    rewrite SelectorFacts.py_lt_int. cbn [bind].
    destruct (first <? y) eqn:E.
    + cbn [minus_one bind]. unfold filter_eq. rewrite Hy. cbn [bind].
      eexists. split; [reflexivity|]. split.
      * split; [discriminate|]. intros H. apply Hearly in H. congruence.
      * intros b Hb. now injection Hb as <-.
    + eexists. split; [reflexivity|]. split.
      * split; [|reflexivity]. intros _. now apply Hearly.
      * discriminate.
Qed.

Lemma previous_period_precedes_witness :
  get_column "year" Samples.sales_table = Ok [PyInt 2024; PyInt 2025]
  /\ In 2025 [2025; 2024]
  /\ exists baseline,
       previous_period_df Samples.sales_table (map PyInt [2025; 2024])
         (PyInt 2025) (PyStr "All Months") = Ok baseline
       /\ forall b, baseline = Some b ->
            b = select_rows [true; false] Samples.sales_table.
Proof.
  assert (Hin : In 2025 [2025; 2024]) by (now left).
  split; [reflexivity|]. split; [exact Hin|].
  destruct (proj2 (previous_period_precedes Samples.sales_table [2025; 2024]
                     2025 _ _ eq_refl eq_refl Hin))
    as (baseline & Hb & _ & Hrows).
  exists baseline. split; [exact Hb|exact Hrows].
Defined.

End MetricFacts.

(** ** After the fetch *)

Module StartFacts.
Import Inventory InventoryViews Sales.

(** X20.  A response with status 200 does not make the sales fetch safe.
    When its body is not JSON the failure is caught and reported like a
    network error, and [load_data] then raises at the read of the unassigned
    [json_data]; when the decoded body has no "data" entry [load_data]
    raises at that lookup without any message. *)
Theorem load_data_bad_body :
  forall to_datetime r,
    status_code r = 200 ->
    (forall e, json r = Raise e ->
       load_data to_datetime (Ok r)
       = ([StWarning "Could not fetch data from API: {}. Using fallback data."
                     (ArgExn e)],
          Raise (UnboundLocalError "json_data")))
    /\ (forall body e, json r = Ok body -> getitem body "data" = Raise e ->
          load_data to_datetime (Ok r) = ([], Raise e)).
Proof.
  intros to_datetime r Hcode. split.
  - intros e He. unfold load_data, fetch_json, try_except.
    rewrite LoadFacts.ui_bind_lift_ok, Hcode. cbn [Z.eqb Pos.eqb].
    rewrite He. reflexivity.
  - intros body e Hb He. unfold load_data, fetch_json, try_except.
    rewrite LoadFacts.ui_bind_lift_ok, Hcode. cbn [Z.eqb Pos.eqb].
    rewrite Hb, LoadFacts.ui_bind_lift_ok. unfold ret at 1. cbn [ui_bind].
    unfold normalize. cbn [read_local].
    rewrite LoadFacts.ui_bind_lift_ok, He. reflexivity.
Qed.

Lemma load_data_bad_body_witness :
  status_code MoreSamples.dataless_sales = 200
  /\ load_data Samples.iso_date (Ok MoreSamples.dataless_sales)
     = ([], Raise (KeyError "data")).
Proof.
  split; [reflexivity|].
  apply (proj2 (load_data_bad_body Samples.iso_date MoreSamples.dataless_sales
                  eq_refl) _ _ eq_refl).
  reflexivity.
Defined.

(** X21.  On the inventory page a failed fetch ends the run: after the
    error of the fetcher a second error "No data available" is shown and
    the page stops before the normalizer.  The same happens, with that one
    error, when the fetch succeeds with an empty mapping; with a mapping
    that is not empty the page goes on with it and reports nothing. *)
Theorem stores_data_stops_on_failure :
  forall (json_loads : string -> option pyval) (get : result response),
    (fetch_failure json_loads get ->
     exists text arg,
       stores_data (fetch_store_data json_loads get)
       = ([StError text arg;
           StError "No data available. Please check the API connection."
                   ArgNone],
          Ok None))
    /\ (forall r, get = Ok r -> ~ (400 <= status_code r < 600) ->
          success_envelope r (PyDict []) ->
          stores_data (fetch_store_data json_loads get)
          = ([StError "No data available. Please check the API connection."
                      ArgNone],
             Ok None))
    /\ (forall r entry rest, get = Ok r -> ~ (400 <= status_code r < 600) ->
          success_envelope r (PyDict (entry :: rest)) ->
          stores_data (fetch_store_data json_loads get)
          = ([], Ok (Some (PyDict (entry :: rest))))).
Proof.
  intros json_loads get. split; [|split].
  - intros Hf.
    destruct (FetchFacts.fetch_failure_empty json_loads get Hf)
      as (Hv & text & arg & Hlog).
    exists text, arg. unfold stores_data.
    destruct (fetch_store_data json_loads get) as [log out].
    cbn [fst snd] in *. subst. reflexivity.
  - intros r -> Hcode Henv.
    destruct (FetchFacts.http_error_dec r) as [H|H]; [contradiction|].
    unfold stores_data.
    now rewrite (FetchFacts.fetch_success json_loads r _ H Henv).
  - intros r entry rest -> Hcode Henv.
    destruct (FetchFacts.http_error_dec r) as [H|H]; [contradiction|].
    unfold stores_data.
    now rewrite (FetchFacts.fetch_success json_loads r _ H Henv).
Qed.

Lemma stores_data_stops_on_failure_witness :
  fetch_failure Samples.loads_empty (Ok Samples.not_found)
  /\ exists text arg,
       stores_data (fetch_store_data Samples.loads_empty (Ok Samples.not_found))
       = ([StError text arg;
           StError "No data available. Please check the API connection."
                   ArgNone],
          Ok None).
Proof.
  assert (F : fetch_failure Samples.loads_empty (Ok Samples.not_found)).
  { apply http_error. cbn. lia. }
  split; [exact F|].
  exact (proj1 (stores_data_stops_on_failure Samples.loads_empty
                  (Ok Samples.not_found)) F).
Defined.

End StartFacts.
